(** * House-Price-Prediction-Scraper: the extraction and geofilter pipeline

    A shallow embedding of [main.py].  Python text is modelled by [string]
    (a sequence of characters with code points below 256), the network and
    the geocoding service by an explicit [World] that every call threads,
    exceptions by a [Raise] result, generators and the CSV writer by the
    list of rows they emit.  Console diagnostics ([print]) are not part of
    the model. *)

From Stdlib Require Import String Ascii List Bool ZArith QArith Qabs Lia.
From Stdlib Require Import DecimalString.
Import ListNotations.

Local Close Scope Q_scope.
Local Open Scope list_scope.
Local Open Scope string_scope.

(** ** Python [str] operations used by the program *)

Module PyStr.

(** [str.isspace] on one character, for code points below 256:
    TAB..CR, FS..US, SPACE, NEL and NBSP. *)
Definition isspace (c : ascii) : bool :=
  let n := nat_of_ascii c in
  (((9 <=? n) && (n <=? 13)) || ((28 <=? n) && (n <=? 32))
   || (n =? 133) || (n =? 160))%nat.

Definition comma : ascii := ","%char.

Definition is_empty (s : string) : bool :=
  match s with EmptyString => true | String _ _ => false end.

(** [s.lstrip()] *)
Fixpoint lstrip (s : string) : string :=
  match s with
  | EmptyString => EmptyString
  | String c s' => if isspace c then lstrip s' else s
  end.

(** [s.rstrip()] *)
Fixpoint rstrip (s : string) : string :=
  match s with
  | EmptyString => EmptyString
  | String c s' =>
      let r := rstrip s' in
      if isspace c && is_empty r then EmptyString else String c r
  end.

(** [s.strip()] *)
Definition strip (s : string) : string := rstrip (lstrip s).

(** [c in s] for a single character [c] *)
Fixpoint char_in (c : ascii) (s : string) : bool :=
  match s with
  | EmptyString => false
  | String d s' => Ascii.eqb c d || char_in c s'
  end.

(** [s.startswith(p)] *)
Fixpoint startswith (p s : string) : bool :=
  match p, s with
  | EmptyString, _ => true
  | String _ _, EmptyString => false
  | String a p', String b s' => Ascii.eqb a b && startswith p' s'
  end.

(** [key in s] for strings: [key] occurs as a substring of [s] *)
Fixpoint contains (key s : string) : bool :=
  startswith key s ||
  match s with
  | EmptyString => false
  | String _ s' => contains key s'
  end.

(** The two parts of [s.split(',', 1)] when [',' in s]: the text before
    the first comma and the text after it.  Without a comma the whole
    text is the first part. *)
Fixpoint split_comma (s : string) : string * string :=
  match s with
  | EmptyString => (EmptyString, EmptyString)
  | String c s' =>
      if Ascii.eqb c comma then (EmptyString, s')
      else let '(a, b) := split_comma s' in (String c a, b)
  end.

(** [str(n)] for an integer *)
Definition str_of_Z (n : Z) : string := NilZero.string_of_int (Z.to_int n).

(** Propositional counterparts used in the statements. *)

Definition Substring (key s : string) : Prop :=
  exists pre post, s = pre ++ key ++ post.

Definition first_char (s : string) : option ascii :=
  match s with EmptyString => None | String c _ => Some c end.

Fixpoint last_char (s : string) : option ascii :=
  match s with
  | EmptyString => None
  | String c EmptyString => Some c
  | String _ s' => last_char s'
  end.

(** No leading and no trailing whitespace. *)
Definition trimmed (s : string) : Prop :=
  (forall c, first_char s = Some c -> isspace c = false) /\
  (forall c, last_char s = Some c -> isspace c = false).

End PyStr.

Import PyStr.

(** ** Results, exceptions and the two monads *)

(** Python exceptions the program can meet.  All of them derive from
    [Exception], so every [except Exception] clause catches them. *)
Inductive Exn : Type :=
| RequestException   (* requests.get: connection error, timeout, invalid URL *)
| GeocoderError      (* geolocator.geocode: service or transport error *)
| KeyError.          (* tag['href'] on a tag without that attribute *)

(** The outcome of running a piece of the program: a value, an exception
    travelling upwards, or a [while True] loop that was cut off by the
    iteration bound of the model. *)
Inductive Result (A : Type) : Type :=
| Ok (a : A)
| Raise (e : Exn)
| OutOfFuel.

Arguments Ok {A} a.
Arguments Raise {A} e.
Arguments OutOfFuel {A}.

(** One row of the table: the Python list handed to [writer.writerow] or
    yielded by the generator. *)
Definition Row : Type := list string.

(** What the program reads from a parsed page.  A page is represented by
    the answers of the [find] / [find_all] queries the program makes on
    it; [None] and [false] stand for a query that returns [None]. *)
Record Anchor : Type := mkAnchor
  { href : option string }.            (* the tag's href attribute *)

Record Card : Type := mkCard
  { card_location : option string;     (* text of the location <p> *)
    card_area : option string;         (* text of data-cy=card-area *)
    card_beds : option string;         (* text of data-cy=card-beds *)
    card_bathrooms : option string;    (* text of data-cy=card-bathrooms *)
    card_link : option Anchor }.       (* <a class=no-underline> *)

Record Soup : Type := mkSoup
  { listing_cards : list Card;         (* find_all of the card <div>s *)
    price_span : option string;        (* text of the price <span> *)
    next_button_div : bool;            (* the pagination container *)
    forward_svg : bool }.              (* the rotated arrow icon *)

(** A geographic point (latitude, longitude). *)
Definition Coords : Type := (Q * Q)%type.

(** Nairobi's coordinates and the maximum distance in km. *)
Definition NAIROBI_COORDS : Coords := ((-12921 # 10000)%Q, (368219 # 10000)%Q).
Definition MAX_DISTANCE : Q := 30%Q.

Definition BASE_ORIGIN : string := "https://www.buyrentkenya.com".

Definition HEADER : Row :=
  ["Location"; "Other Location Details"; "Size"; "Bedrooms"; "Bathrooms";
   "Price"; "Property Type"; "Purchase Type"].

(** The lookup table of [get_property_type], in insertion order. *)
Definition property_types : list (string * (string * string)) :=
  [ ("houses-for-sale", ("House", "Sale"));
    ("flats-apartments-for-sale", ("Apartment", "Sale"));
    ("houses-for-rent", ("House", "Rent"));
    ("flats-apartments-for-rent", ("Apartment", "Rent"));
    ("bedsitters-for-rent", ("Bedsitter", "Rent")) ].

(** [for key, value in table.items(): if key in url: return value] *)
Fixpoint first_match (table : list (string * (string * string))) (url : string)
  : option (string * string) :=
  match table with
  | [] => None
  | (key, value) :: rest =>
      if contains key url then Some value else first_match rest url
  end.

Definition get_property_type (url : string) : string * string :=
  match first_match property_types url with
  | Some value => value
  | None => ("Unknown", "Unknown")
  end.

(** The guard [',' in location_text] makes the unpacking of
    [split(',', 1)] into two names safe. *)
Definition parse_location (location_text : string) : string * string :=
  if char_in comma location_text then
    let '(location, other_details) := split_comma location_text in
    (strip location, strip other_details)
  else (strip location_text, "").

(** [next_button_div and soup.find('svg', ...)], as a truth value *)
Definition has_next_page (soup : Soup) : bool :=
  next_button_div soup && forward_svg soup.

(** The text of an optional node, stripped, or the placeholder. *)
Definition text_or_None (node : option string) : string :=
  match node with Some t => strip t | None => "None" end.

(** Projections of a run that emits rows. *)
Definition rows_of {A W} (x : list Row * Result A * W) : list Row := fst (fst x).
Definition result_of {A W} (x : list Row * Result A * W) : Result A := snd (fst x).
Definition world_of {A W} (x : list Row * Result A * W) : W := snd x.

(** A run preceded by rows that were emitted before it. *)
Definition after_rows {A W} (rows : list Row) (x : list Row * Result A * W)
  : list Row * Result A * W :=
  ((rows ++ rows_of x)%list, result_of x, world_of x).

(** The row built for an accepted card (line 131 of the source). *)
Definition record_row (location_pair : string * string) (prop : Card)
    (detailed_price : string) (category : string * string) : Row :=
  [fst location_pair; snd location_pair; text_or_None (card_area prop);
   text_or_None (card_beds prop); text_or_None (card_bathrooms prop);
   detailed_price; fst category; snd category].

Section Pipeline.

(** The outside world: the web site and the geocoding service.  Each call
    may change the world and may raise. *)
Variable World : Type.
Variable requests_get : string -> World -> (Exn + Soup) * World.
Variable geocode : string -> World -> (Exn + option Coords) * World.
(** [geodesic(a, b).km], the library's distance in km between two points *)
Variable geodesic_km : Coords -> Coords -> Q.

(** State and exceptions. *)
Definition M (A : Type) : Type := World -> Result A * World.

Definition ret {A} (a : A) : M A := fun w => (Ok a, w).

Definition bind {A B} (m : M A) (k : A -> M B) : M B :=
  fun w =>
    match m w with
    | (Ok a, w') => k a w'
    | (Raise e, w') => (Raise e, w')
    | (OutOfFuel, w') => (OutOfFuel, w')
    end.

(** [try: body  except Exception as e: handler] *)
Definition try_except {A} (body : M A) (handler : Exn -> M A) : M A :=
  fun w =>
    match body w with
    | (Raise e, w') => handler e w'
    | other => other
    end.

Definition call {A} (f : World -> (Exn + A) * World) : M A :=
  fun w =>
    match f w with
    | (inl e, w') => (Raise e, w')
    | (inr a, w') => (Ok a, w')
    end.

(** State, exceptions and emitted rows: generator bodies ([yield]) and
    code that writes rows to the CSV writer. *)
Definition Gen (A : Type) : Type := World -> list Row * Result A * World.

Definition gret {A} (a : A) : Gen A := fun w => ([], Ok a, w).

Definition gbind {A B} (m : Gen A) (k : A -> Gen B) : Gen B :=
  fun w =>
    match m w with
    | (rows, Ok a, w') =>
        let '(rows', r, w'') := k a w' in ((rows ++ rows')%list, r, w'')
    | (rows, Raise e, w') => (rows, Raise e, w')
    | (rows, OutOfFuel, w') => (rows, OutOfFuel, w')
    end.

(** [yield row] in a generator, [writer.writerow(row)] in the driver *)
Definition emit (row : Row) : Gen unit := fun w => ([row], Ok tt, w).

Definition lift {A} (m : M A) : Gen A :=
  fun w => let '(r, w') := m w in ([], r, w').

Definition gen_try_except {A} (body : Gen A) (handler : Exn -> Gen A) : Gen A :=
  fun w =>
    match body w with
    | (rows, Raise e, w') =>
        let '(rows', r, w'') := handler e w' in ((rows ++ rows')%list, r, w'')
    | other => other
    end.

Definition out_of_fuel {A} : Gen A := fun w => ([], OutOfFuel, w).

Notation "x <- m ;; k" := (bind m (fun x => k))
  (at level 61, m at next level, right associativity).
Notation "x <~ m ;; k" := (gbind m (fun x => k))
  (at level 61, m at next level, right associativity).

Definition is_within_nairobi_area (location : string) : M bool :=
  try_except
    (location_info <- call (geocode (location ++ ", Kenya")) ;;
     match location_info with
     | Some property_coords =>
         let distance := geodesic_km NAIROBI_COORDS property_coords in
         ret (Qle_bool distance MAX_DISTANCE)
     | None => ret false
     end)
    (fun _ => ret false).

Definition extract_price (details_url : string) : M string :=
  try_except
    (soup <- call (requests_get details_url) ;;
     ret (text_or_None (price_span soup)))
    (fun _ => ret "None").

(** [location_text, other_location_details] of a card *)
Definition card_location_pair (prop : Card) : string * string :=
  match card_location prop with
  | Some text => parse_location (strip text)
  | None => ("None", "None")
  end.

(** ['https://www.buyrentkenya.com' + price_tag['href'] if price_tag else 'None'] *)
Definition details_url_of (price_tag : option Anchor) : M string :=
  match price_tag with
  | Some a =>
      match href a with
      | Some h => ret (BASE_ORIGIN ++ h)
      | None => fun w => (Raise KeyError, w)
      end
  | None => ret "None"
  end.

(** The body of [for prop in properties] in [fetch_properties]. *)
Fixpoint cards_loop (property_type purchase_type : string)
    (properties : list Card) : Gen unit :=
  match properties with
  | [] => gret tt
  | prop :: rest =>
      let '(location_text, other_location_details) := card_location_pair prop in
      within <~ lift (is_within_nairobi_area location_text) ;;
      if negb within then cards_loop property_type purchase_type rest
      else
        let size_text := text_or_None (card_area prop) in
        let bedrooms_text := text_or_None (card_beds prop) in
        let bathrooms_text := text_or_None (card_bathrooms prop) in
        details_url <~ lift (details_url_of (card_link prop)) ;;
        detailed_price <~ lift (extract_price details_url) ;;
        _ <~ emit [location_text; other_location_details; size_text;
                   bedrooms_text; bathrooms_text; detailed_price;
                   property_type; purchase_type] ;;
        cards_loop property_type purchase_type rest
  end.

Definition fetch_properties (url : string) : Gen unit :=
  gen_try_except
    (soup <~ lift (call (requests_get url)) ;;
     let properties := listing_cards soup in
     let '(property_type, purchase_type) := get_property_type url in
     cards_loop property_type purchase_type properties)
    (fun _ => gret tt).

(** [for property_data in gen: writer.writerow(property_data);
     properties_found = True]: every yielded row is written, and the
    flag tells whether there was one. *)
Definition write_all (gen : Gen unit) : Gen bool :=
  fun w =>
    match gen w with
    | (rows, Ok _, w') => (rows, Ok (negb (Nat.eqb (length rows) 0)), w')
    | (rows, Raise e, w') => (rows, Raise e, w')
    | (rows, OutOfFuel, w') => (rows, OutOfFuel, w')
    end.

(** [f"{base_url}?page={page}" if page > 1 else base_url] *)
Definition page_url (base_url : string) (page : Z) : string :=
  if (page >? 1)%Z then base_url ++ "?page=" ++ str_of_Z page else base_url.

(** The [while True] loop of one category, cut off after [fuel] pages. *)
Fixpoint pages_loop (fuel : nat) (base_url : string) (page : Z) : Gen unit :=
  match fuel with
  | O => out_of_fuel
  | S fuel' =>
      let url := page_url base_url page in
      soup <~ lift (call (requests_get url)) ;;
      properties_found <~ write_all (fetch_properties url) ;;
      if negb properties_found || negb (has_next_page soup) then gret tt
      else pages_loop fuel' base_url (page + 1)%Z
  end.

(** [for base_url in base_urls: page = 1; while True: ...] *)
Fixpoint categories_loop (fuel : nat) (base_urls : list string) : Gen unit :=
  match base_urls with
  | [] => gret tt
  | base_url :: rest =>
      _ <~ pages_loop fuel base_url 1%Z ;;
      categories_loop fuel rest
  end.

Definition scrape_all_properties (fuel : nat) (base_urls : list string) : Gen unit :=
  _ <~ emit HEADER ;;
  categories_loop fuel base_urls.

(** [row] is the record of the card [prop] on a page of the given
    category: the filter accepted the card's location in some world, and
    the price is what [extract_price] returned for the card's link. *)
Definition record_of (category : string * string) (prop : Card) (row : Row) : Prop :=
  exists w0 w1 details_url w2 w3 detailed_price,
    is_within_nairobi_area (fst (card_location_pair prop)) w0 = (Ok true, w1) /\
    details_url_of (card_link prop) w1 = (Ok details_url, w2) /\
    extract_price details_url w2 = (Ok detailed_price, w3) /\
    row = record_row (card_location_pair prop) prop detailed_price category.

(** Page [page] of a category ends its traversal in every world: it
    yields no record, or its markup shows no next-page indicator. *)
Definition last_page (base_url : string) (page : Z) : Prop :=
  forall w soup w1,
    requests_get (page_url base_url page) w = (inr soup, w1) ->
    rows_of (fetch_properties (page_url base_url page) w1) = [] \/
    has_next_page soup = false.

End Pipeline.

(** The interpreter's exit status: 0 after a normal end, 1 after an
    uncaught exception; none while the program is still running. *)
Definition exit_status {A} (r : Result A) : option Z :=
  match r with
  | Ok _ => Some 0%Z
  | Raise _ => Some 1%Z
  | OutOfFuel => None
  end.

(** ** A simulated web site and geocoder, for concrete runs

    The world is the log of the calls made so far.  [requests_get] raises
    for a URL without a scheme (as [requests] does before any traffic), for
    a URL listed as unreachable, and for a URL listed as flaky once it has
    been requested before. *)
Module Sim.

Inductive Call : Type :=
| Get (url : string)
| Geocode (query : string).

Definition World : Type := list Call.

Record Net : Type := mkNet
  { site : list (string * Soup);
    places : list (string * Coords);
    unreachable : list string;
    flaky : list string;
    geocoder_down : bool }.

Fixpoint lookup {A} (key : string) (table : list (string * A)) : option A :=
  match table with
  | [] => None
  | (k, v) :: rest => if String.eqb key k then Some v else lookup key rest
  end.

Definition is_get (url : string) (c : Call) : bool :=
  match c with Get u => String.eqb url u | Geocode _ => false end.

Definition blank_page : Soup := mkSoup [] None false false.

Definition requests_get (net : Net) (url : string) (w : World)
  : (Exn + Soup) * World :=
  (if negb (startswith "http" url)
      || existsb (String.eqb url) (unreachable net)
      || (existsb (String.eqb url) (flaky net) && existsb (is_get url) w)
   then inl RequestException
   else inr (match lookup url (site net) with
             | Some page => page
             | None => blank_page
             end),
   (w ++ [Get url])%list).

Definition geocode (net : Net) (query : string) (w : World)
  : (Exn + option Coords) * World :=
  (if geocoder_down net then inl GeocoderError
   else inr (lookup query (places net)),
   (w ++ [Geocode query])%list).

(** A stand-in for the geodesic distance: 111 km per degree, along the
    meridian and then along the parallel. *)
Definition flat_km (a b : Coords) : Q :=
  (111 * (Qabs (fst a - fst b) + Qabs (snd a - snd b)))%Q.

Definition run_fetch (net : Net) (url : string) (w : World) :=
  fetch_properties World (requests_get net) (geocode net) flat_km url w.

Definition run_scrape (net : Net) (fuel : nat) (base_urls : list string) (w : World) :=
  scrape_all_properties World (requests_get net) (geocode net) flat_km fuel base_urls w.

(** Sample data. *)
Definition houses_for_sale : string := "https://www.buyrentkenya.com/houses-for-sale".
Definition flats_for_rent : string := "https://www.buyrentkenya.com/flats-apartments-for-rent".

Definition card_karen : Card :=
  mkCard (Some "  Karen , Nairobi ") (Some " 450 sqm") (Some "4") (Some "3 ")
         (Some (mkAnchor (Some "/listings/karen-villa"))).
Definition card_nyali : Card :=
  mkCard (Some "Nyali, Mombasa") (Some "300 sqm") (Some "3") (Some "2")
         (Some (mkAnchor (Some "/listings/nyali-house"))).
Definition card_kilimani_nolink : Card :=
  mkCard (Some "Kilimani") None (Some "2") None None.
Definition card_nolocation : Card :=
  mkCard None (Some "120 sqm") (Some "2") (Some "1")
         (Some (mkAnchor (Some "/listings/unnamed"))).
Definition card_edge : Card :=
  mkCard (Some "Edge") None None None (Some (mkAnchor (Some "/listings/edge"))).

Definition sample_places : list (string * Coords) :=
  [ ("Karen, Kenya", ((-13197 # 10000)%Q, (367073 # 10000)%Q));
    ("Nyali, Kenya", ((-40435 # 10000)%Q, (397036 # 10000)%Q));
    ("Kilimani, Kenya", ((-12893 # 10000)%Q, (367869 # 10000)%Q));
    ("Edge, Kenya", ((-12921 # 10000) + (30 # 111), (368219 # 10000))%Q) ].

Definition karen_detail : Soup := mkSoup [] (Some " KSh 45,000,000 ") false false.

Definition net_of (pages : list (string * Soup)) : Net :=
  mkNet pages sample_places [] [] false.

Definition listing_page (cards : list Card) (more : bool) : Soup :=
  mkSoup cards None more more.

Definition karen_url : string := "https://www.buyrentkenya.com/listings/karen-villa".

Definition karen_row : Row :=
  ["Karen"; "Nairobi"; "450 sqm"; "4"; "3"; "KSh 45,000,000"; "House"; "Sale"].

Definition kilimani_row : Row :=
  ["Kilimani"; ""; "None"; "2"; "None"; "None"; "House"; "Sale"].

(** One listing page with a next-page indicator, one detail page. *)
Definition sample_net : Net :=
  net_of [ (houses_for_sale, listing_page [card_karen; card_nyali] true);
           (karen_url, karen_detail) ].

Definition nolink_net : Net :=
  net_of [ (houses_for_sale, listing_page [card_kilimani_nolink] false) ].

Definition nolocation_net : Net :=
  net_of [ (houses_for_sale, listing_page [card_nolocation] false) ].

Definition edge_net : Net :=
  net_of [ (houses_for_sale, listing_page [card_edge] false) ].

(** The first category's listing URL cannot be reached. *)
Definition offline_net : Net :=
  mkNet [ (flats_for_rent, listing_page [card_karen] false) ]
        sample_places [houses_for_sale] [] false.

(** The listing URL answers once and fails on every later request. *)
Definition flaky_net : Net :=
  mkNet [ (houses_for_sale, listing_page [card_karen] true) ]
        sample_places [] [houses_for_sale] false.

(** The detail page of the one card cannot be reached. *)
Definition edge_unreachable_net : Net :=
  mkNet [ (houses_for_sale, listing_page [card_edge] false) ]
        sample_places ["https://www.buyrentkenya.com/listings/edge"] [] false.

Definition geocoder_down_net : Net :=
  mkNet [] sample_places [] [] true.

End Sim.

(** ** The entry point *)

(** The base URLs of the [__main__] block, in order. *)
Definition base_urls : list string :=
  [ "https://www.buyrentkenya.com/houses-for-sale";
    "https://www.buyrentkenya.com/flats-apartments-for-sale";
    "https://www.buyrentkenya.com/houses-for-rent";
    "https://www.buyrentkenya.com/flats-apartments-for-rent";
    "https://www.buyrentkenya.com/bedsitters-for-rent" ].

Section Main.

Variable World : Type.
Variable requests_get : string -> World -> (Exn + Soup) * World.
Variable geocode : string -> World -> (Exn + option Coords) * World.
Variable geodesic_km : Coords -> Coords -> Q.

(** [scrape_all_properties(base_urls)], followed by a message on the
    console. *)
Definition main (fuel : nat) : Gen World unit :=
  scrape_all_properties World requests_get geocode geodesic_km fuel base_urls.

End Main.

(** A text made of whitespace only. *)
Fixpoint all_space (s : string) : bool :=
  match s with
  | EmptyString => true
  | String c s' => isspace c && all_space s'
  end.

(** More sample data for concrete runs. *)
Module Samples.

(** The link of this card has no [href] attribute. *)
Definition card_nohref : Card :=
  mkCard (Some "Kilimani, Nairobi") (Some "90 sqm") (Some "1") (Some "1")
         (Some (mkAnchor None)).

Definition nohref_net : Sim.Net :=
  Sim.net_of
    [ (Sim.houses_for_sale,
       Sim.listing_page [Sim.card_karen; card_nohref; Sim.card_kilimani_nolink] true);
      (Sim.karen_url, Sim.karen_detail) ].

(** Two categories, one page each. *)
Definition two_category_net : Sim.Net :=
  Sim.net_of
    [ (Sim.houses_for_sale, Sim.listing_page [Sim.card_karen] false);
      (Sim.flats_for_rent, Sim.listing_page [Sim.card_kilimani_nolink] false);
      (Sim.karen_url, Sim.karen_detail) ].

(** A listing page with a card, and a geocoder that always raises. *)
Definition silent_geocoder_net : Sim.Net :=
  Sim.mkNet [ (Sim.houses_for_sale, Sim.listing_page [Sim.card_karen] true) ]
            Sim.sample_places [] [] true.

Definition kilimani_rent_row : Row :=
  ["Kilimani"; ""; "None"; "2"; "None"; "None"; "Apartment"; "Rent"].

End Samples.

(** ** The CSV writer

    [csv.writer(file)] with the default dialect: the fields of a row are
    separated by a comma alone; a field that holds a comma, a double quote,
    a carriage return or a line feed is put between double quotes, with its
    own double quotes doubled; every row ends with CR LF.  The file is
    opened with [newline=''], so that text reaches the file as it is. *)
Module Csv.

Definition dquote : ascii := ascii_of_nat 34.
Definition cr : ascii := ascii_of_nat 13.
Definition lf : ascii := ascii_of_nat 10.

Definition lineterminator : string := String cr (String lf EmptyString).

Definition special (c : ascii) : bool :=
  Ascii.eqb c comma || Ascii.eqb c dquote || Ascii.eqb c cr || Ascii.eqb c lf.

Fixpoint has_special (s : string) : bool :=
  match s with
  | EmptyString => false
  | String c s' => special c || has_special s'
  end.

Fixpoint double_quotes (s : string) : string :=
  match s with
  | EmptyString => EmptyString
  | String c s' =>
      if Ascii.eqb c dquote then String dquote (String dquote (double_quotes s'))
      else String c (double_quotes s')
  end.

Definition quote (s : string) : string :=
  String dquote (double_quotes s ++ String dquote EmptyString).

Definition field (s : string) : string :=
  if has_special s then quote s else s.

Fixpoint join (fields : list string) : string :=
  match fields with
  | [] => EmptyString
  | [f] => f
  | f :: rest => f ++ "," ++ join rest
  end.

(** The text [writer.writerow(row)] writes.  A row that consists of one
    empty field is written as a pair of double quotes. *)
Definition writerow (row : Row) : string :=
  match row with
  | [f] => (if is_empty f then quote f else field f) ++ lineterminator
  | _ => join (map field row) ++ lineterminator
  end.

(** The text of the file after the rows were written in order. *)
Fixpoint file_text (rows : list Row) : string :=
  match rows with
  | [] => EmptyString
  | row :: rest => writerow row ++ file_text rest
  end.

End Csv.

(** ** The iterations of a run *)

Section Trace.

Variable World : Type.
Variable requests_get : string -> World -> (Exn + Soup) * World.
Variable geocode : string -> World -> (Exn + option Coords) * World.
Variable geodesic_km : Coords -> Coords -> Q.

(** The pagination loop at the top of an iteration: the page number and
    the world. *)
Definition LoopState : Type := (Z * World)%type.

(** One iteration that goes on to the next page: the loop's own fetch
    returns, the generator yields a row, the markup has the next-page
    indicator; the next iteration starts in the world the generator left. *)
Inductive next_page_step (base_url : string) : LoopState -> LoopState -> Prop :=
| next_page_step_intro (page : Z) (w : World) (soup : Soup) (w1 : World) :
    requests_get (page_url base_url page) w = (inr soup, w1) ->
    rows_of (fetch_properties World requests_get geocode geodesic_km
               (page_url base_url page) w1) <> [] ->
    has_next_page soup = true ->
    next_page_step base_url (page, w)
      ((page + 1)%Z,
       world_of (fetch_properties World requests_get geocode geodesic_km
                   (page_url base_url page) w1)).

(** [n] such iterations in a row. *)
Inductive iterations (base_url : string) : nat -> LoopState -> LoopState -> Prop :=
| iterations_O (s : LoopState) : iterations base_url 0 s s
| iterations_S (n : nat) (s1 s2 s3 : LoopState) :
    next_page_step base_url s1 s2 ->
    iterations base_url n s2 s3 ->
    iterations base_url (S n) s1 s3.

(** The world in which a run over the base URLs starts on a category:
    the first category starts in the world of the run, a later one in the
    world left by the categories before it, which all ended normally. *)
Inductive category_start (fuel : nat)
  : list string -> World -> string -> World -> Prop :=
| category_start_here (base_url : string) (rest : list string) (w : World) :
    category_start fuel (base_url :: rest) w base_url w
| category_start_later (first : string) (rest : list string) (w : World)
    (base_url : string) (w' : World) :
    result_of (pages_loop World requests_get geocode geodesic_km fuel first 1%Z w)
      = Ok tt ->
    category_start fuel rest
      (world_of (pages_loop World requests_get geocode geodesic_km fuel first 1%Z w))
      base_url w' ->
    category_start fuel (first :: rest) w base_url w'.

(** In the run that starts in [w], the pagination loop is at the top of
    the iteration for page [page] of [base_url], in world [wp]. *)
Definition iteration_of_run (fuel : nat) (base_urls : list string) (w : World)
    (base_url : string) (page : Z) (wp : World) : Prop :=
  exists ws n,
    category_start fuel base_urls w base_url ws /\
    (n < fuel)%nat /\
    iterations base_url n (1%Z, ws) (page, wp).

(** In the run that starts in [w], the generator for the page at [url]
    received the markup [soup] and started on its cards in world [wc]:
    the loop's own fetch of the page returned, and then the fetch inside
    [fetch_properties] returned [soup]. *)
Definition page_fetched (fuel : nat) (base_urls : list string) (w : World)
    (url : string) (soup : Soup) (wc : World) : Prop :=
  exists base_url page wp soup0 w1,
    In base_url base_urls /\
    iteration_of_run fuel base_urls w base_url page wp /\
    url = page_url base_url page /\
    requests_get url wp = (inr soup0, w1) /\
    requests_get url w1 = (inr soup, wc).

End Trace.

(** ** Facts about the string operations *)

Module PyStrFacts.

Lemma isspace_comma : isspace comma = false.
Proof. reflexivity. Qed.

Lemma is_empty_eq (s : string) : is_empty s = true -> s = "".
Proof. destruct s; [reflexivity | discriminate]. Qed.

Lemma lstrip_idem (s : string) : lstrip (lstrip s) = lstrip s.
Proof.
  induction s as [| c s IH]; simpl; [reflexivity |].
  destruct (isspace c) eqn:E; [exact IH | simpl; rewrite E; reflexivity].
Qed.

Lemma rstrip_idem (s : string) : rstrip (rstrip s) = rstrip s.
Proof.
  induction s as [| c s IH]; simpl; [reflexivity |].
  destruct (isspace c && is_empty (rstrip s)) eqn:E; simpl; [reflexivity |].
  rewrite IH, E. reflexivity.
Qed.

Lemma lstrip_rstrip (s : string) : lstrip (rstrip s) = rstrip (lstrip s).
Proof.
  induction s as [| c s IH]; simpl; [reflexivity |].
  destruct (isspace c) eqn:E; simpl.
  - destruct (is_empty (rstrip s)) eqn:R; simpl.
    + rewrite <- IH. apply is_empty_eq in R. rewrite R. reflexivity.
    + rewrite E. exact IH.
  - rewrite E. reflexivity.
Qed.

(** The text before the first comma. *)
Lemma before_lstrip (s : string) :
  fst (split_comma (lstrip s)) = lstrip (fst (split_comma s)).
Proof.
  induction s as [| c s IH]; simpl; [reflexivity |].
  destruct (isspace c) eqn:E.
  - destruct (Ascii.eqb c comma) eqn:C.
    + apply Ascii.eqb_eq in C. subst c. discriminate.
    + destruct (split_comma s) as [a b]. simpl. rewrite E. exact IH.
  - simpl. destruct (Ascii.eqb c comma) eqn:C; [reflexivity |].
    destruct (split_comma s) as [a b]. simpl. rewrite E. reflexivity.
Qed.

Lemma before_cons (c : ascii) (s : string) :
  fst (split_comma (String c s)) =
  if Ascii.eqb c comma then "" else String c (fst (split_comma s)).
Proof.
  simpl. destruct (Ascii.eqb c comma); [reflexivity |].
  destruct (split_comma s); reflexivity.
Qed.

Lemma rstrip_before_rstrip (s : string) :
  rstrip (fst (split_comma (rstrip s))) = rstrip (fst (split_comma s)).
Proof.
  induction s as [| c s IH]; [reflexivity |].
  cbn [rstrip]. rewrite (before_cons c s).
  destruct (Ascii.eqb c comma) eqn:C.
  - apply Ascii.eqb_eq in C. subst c.
    cbn [isspace andb]. rewrite isspace_comma. reflexivity.
  - destruct (isspace c && is_empty (rstrip s)) eqn:E.
    + apply andb_true_iff in E. destruct E as [E1 E2].
      apply is_empty_eq in E2. rewrite E2 in IH. cbn in IH.
      cbn [rstrip split_comma fst]. rewrite <- IH, E1. reflexivity.
    + rewrite before_cons, C. cbn [rstrip]. rewrite IH. reflexivity.
Qed.

Lemma strip_before_strip (s : string) :
  strip (fst (split_comma (strip s))) = strip (fst (split_comma s)).
Proof.
  unfold strip.
  rewrite <- (lstrip_rstrip (fst (split_comma (rstrip (lstrip s))))).
  rewrite rstrip_before_rstrip, before_lstrip, lstrip_rstrip, lstrip_idem.
  reflexivity.
Qed.

Lemma strip_idem (s : string) : strip (strip s) = strip s.
Proof.
  unfold strip. rewrite <- lstrip_rstrip, rstrip_idem, lstrip_rstrip, lstrip_idem.
  reflexivity.
Qed.

(** Stripping and splitting introduce no comma. *)
Lemma char_in_lstrip (c : ascii) (s : string) :
  char_in c s = false -> char_in c (lstrip s) = false.
Proof.
  induction s as [| d s IH]; simpl; [reflexivity |]. intros H.
  apply orb_false_iff in H. destruct H as [H1 H2].
  destruct (isspace d); [auto | simpl; rewrite H1, H2; reflexivity].
Qed.

Lemma char_in_rstrip (c : ascii) (s : string) :
  char_in c s = false -> char_in c (rstrip s) = false.
Proof.
  induction s as [| d s IH]; simpl; [reflexivity |]. intros H.
  apply orb_false_iff in H. destruct H as [H1 H2].
  destruct (isspace d && is_empty (rstrip s)); [reflexivity |].
  simpl. rewrite H1, (IH H2). reflexivity.
Qed.

Lemma char_in_strip (c : ascii) (s : string) :
  char_in c s = false -> char_in c (strip s) = false.
Proof. intros H. apply char_in_rstrip, char_in_lstrip, H. Qed.

Lemma before_no_comma (s : string) :
  char_in comma (fst (split_comma s)) = false.
Proof.
  induction s as [| c s IH]; [reflexivity |].
  rewrite before_cons. destruct (Ascii.eqb c comma) eqn:C; [reflexivity |].
  cbn [char_in]. rewrite Ascii.eqb_sym, C. exact IH.
Qed.

Lemma split_no_comma (s : string) :
  char_in comma s = false -> split_comma s = (s, "").
Proof.
  induction s as [| c s IH]; cbn [char_in split_comma]; [reflexivity |]. intros H.
  apply orb_false_iff in H. destruct H as [H1 H2].
  rewrite Ascii.eqb_sym, H1, (IH H2). reflexivity.
Qed.

Lemma split_at_first_comma (b a : string) :
  char_in comma b = false ->
  split_comma (b ++ String comma a) = (b, a).
Proof.
  induction b as [| c b IH]; cbn [char_in split_comma append].
  - intros _. rewrite Ascii.eqb_refl. reflexivity.
  - intros H. apply orb_false_iff in H. destruct H as [H1 H2].
    rewrite Ascii.eqb_sym, H1, (IH H2). reflexivity.
Qed.

Lemma char_in_app (c : ascii) (b a : string) :
  char_in c (b ++ String c a) = true.
Proof.
  induction b as [| d b IH]; cbn [char_in append].
  - rewrite Ascii.eqb_refl. reflexivity.
  - rewrite IH. apply orb_true_r.
Qed.

(** The result of [strip] has no whitespace at either end. *)
Lemma lstrip_first (s : string) (c : ascii) :
  first_char (lstrip s) = Some c -> isspace c = false.
Proof.
  induction s as [| d s IH]; simpl; [discriminate |].
  destruct (isspace d) eqn:E; [exact IH |].
  simpl. intros H. injection H as <-. exact E.
Qed.

Lemma rstrip_first (s : string) (c : ascii) :
  first_char s = Some c -> isspace c = false -> first_char (rstrip s) = Some c.
Proof.
  destruct s as [| d s]; simpl; [discriminate |].
  intros H E. injection H as ->. rewrite E. reflexivity.
Qed.

Lemma rstrip_first_inv (s : string) (c : ascii) :
  first_char (rstrip s) = Some c -> first_char s = Some c.
Proof.
  destruct s as [| d s]; simpl; [discriminate |].
  destruct (isspace d && is_empty (rstrip s)); [discriminate | auto].
Qed.

Lemma rstrip_last (s : string) (c : ascii) :
  last_char (rstrip s) = Some c -> isspace c = false.
Proof.
  induction s as [| d s IH]; simpl; [discriminate |].
  destruct (isspace d) eqn:E; simpl.
  - destruct (rstrip s) as [| e r] eqn:R; simpl; [discriminate |]. exact IH.
  - destruct (rstrip s) as [| e r] eqn:R; simpl.
    + intros H. injection H as <-. exact E.
    + exact IH.
Qed.

Lemma strip_trimmed (s : string) : trimmed (strip s).
Proof.
  split; intros c H.
  - apply rstrip_first_inv in H. exact (lstrip_first _ _ H).
  - exact (rstrip_last _ _ H).
Qed.

(** [startswith] and [contains] decide the prefix and substring relations. *)
Lemma startswith_spec (p s : string) :
  startswith p s = true <-> exists post, s = p ++ post.
Proof.
  revert s. induction p as [| a p IH]; intros s; simpl.
  - split; [intros _; exists s; reflexivity | reflexivity].
  - destruct s as [| b s].
    + split; [discriminate | intros [post H]; discriminate].
    + rewrite andb_true_iff, Ascii.eqb_eq, IH. split.
      * intros [-> [post ->]]. exists post. reflexivity.
      * intros [post H]. injection H as -> ->. split; [reflexivity | eauto].
Qed.

Lemma contains_spec (key s : string) :
  contains key s = true <-> Substring key s.
Proof.
  unfold Substring. induction s as [| c s IH].
  - simpl. rewrite orb_false_r, startswith_spec. split.
    + intros [post H]. exists "", post. exact H.
    + intros [pre [post H]]. destruct pre; [eauto | discriminate].
  - cbn [contains]. rewrite orb_true_iff, startswith_spec, IH. split.
    + intros [[post H] | [pre [post H]]].
      * exists "", post. exact H.
      * exists (String c pre), post. simpl. rewrite H. reflexivity.
    + intros [pre [post H]]. destruct pre as [| d pre].
      * left. exists post. exact H.
      * right. simpl in H. injection H as _ H. eauto.
Qed.

Lemma contains_false (key s : string) :
  contains key s = false <-> ~ Substring key s.
Proof.
  rewrite <- contains_spec. destruct (contains key s); split; congruence.
Qed.

End PyStrFacts.

(** ** Facts about the pipeline *)

Section PipelineFacts.

Variable World : Type.
Variable requests_get : string -> World -> (Exn + Soup) * World.
Variable geocode : string -> World -> (Exn + option Coords) * World.
Variable geodesic_km : Coords -> Coords -> Q.

Local Abbreviation within := (is_within_nairobi_area World geocode geodesic_km).
Local Abbreviation price_of := (extract_price World requests_get).
Local Abbreviation link_of := (details_url_of World).
Local Abbreviation cards := (cards_loop World requests_get geocode geodesic_km).
Local Abbreviation fetch := (fetch_properties World requests_get geocode geodesic_km).
Local Abbreviation pages := (pages_loop World requests_get geocode geodesic_km).
Local Abbreviation categories := (categories_loop World requests_get geocode geodesic_km).
Local Abbreviation scrape := (scrape_all_properties World requests_get geocode geodesic_km).
Local Abbreviation record := (record_of World requests_get geocode geodesic_km).

(** *** Running the monads *)

Lemma after_rows_eq {A} (rows : list Row) (x : list Row * Result A * World) :
  (let '(rows', r, w) := x in ((rows ++ rows')%list, r, w)) = after_rows rows x.
Proof. destruct x as [[rows' r] w]. reflexivity. Qed.

Lemma after_rows_nil {A} (x : list Row * Result A * World) : after_rows [] x = x.
Proof. destruct x as [[rows r] w]. reflexivity. Qed.

Lemma after_rows_app {A} (r1 r2 : list Row) (x : list Row * Result A * World) :
  after_rows r1 (after_rows r2 x) = after_rows (r1 ++ r2) x.
Proof.
  destruct x as [[rows r] w]. unfold after_rows, rows_of, result_of, world_of.
  cbn [fst snd]. rewrite app_assoc. reflexivity.
Qed.

Lemma gbind_run {A B} (m : Gen World A) (k : A -> Gen World B) (w : World) :
  gbind World m k w =
  match m w with
  | (rows, Ok a, w') => after_rows rows (k a w')
  | (rows, Raise e, w') => (rows, Raise e, w')
  | (rows, OutOfFuel, w') => (rows, OutOfFuel, w')
  end.
Proof.
  unfold gbind. destruct (m w) as [[rows [a | e |]] w']; try reflexivity.
  apply after_rows_eq.
Qed.

Lemma gbind_lift_ok {A B} (m : M World A) (k : A -> Gen World B) w a w' :
  m w = (Ok a, w') -> gbind World (lift World m) k w = k a w'.
Proof.
  intros H. rewrite gbind_run. unfold lift. rewrite H. apply after_rows_nil.
Qed.

Lemma gbind_lift_raise {A B} (m : M World A) (k : A -> Gen World B) w e w' :
  m w = (Raise e, w') -> gbind World (lift World m) k w = ([], Raise e, w').
Proof. intros H. rewrite gbind_run. unfold lift. rewrite H. reflexivity. Qed.

(** *** The geographic filter and the price lookup *)

Lemma within_run (location : string) (w : World) :
  within location w =
  match geocode (location ++ ", Kenya") w with
  | (inr (Some c), w') =>
      (Ok (Qle_bool (geodesic_km NAIROBI_COORDS c) MAX_DISTANCE), w')
  | (_, w') => (Ok false, w')
  end.
Proof.
  unfold is_within_nairobi_area, try_except, bind, call.
  destruct (geocode (location ++ ", Kenya") w) as [[e | [c |]] w']; reflexivity.
Qed.

Lemma within_total (location : string) (w : World) :
  exists b w', within location w = (Ok b, w').
Proof.
  rewrite within_run.
  destruct (geocode (location ++ ", Kenya") w) as [[e | [c |]] w']; eauto.
Qed.

Lemma price_run (details_url : string) (w : World) :
  price_of details_url w =
  match requests_get details_url w with
  | (inr soup, w') => (Ok (text_or_None (price_span soup)), w')
  | (inl _, w') => (Ok "None", w')
  end.
Proof.
  unfold extract_price, try_except, bind, call.
  destruct (requests_get details_url w) as [[e | soup] w']; reflexivity.
Qed.

Lemma price_total (details_url : string) (w : World) :
  exists price w', price_of details_url w = (Ok price, w').
Proof.
  rewrite price_run.
  destruct (requests_get details_url w) as [[e | soup] w']; eauto.
Qed.

(** *** One card *)

Lemma cards_drop pt pu prop rest w w1 :
  within (fst (card_location_pair prop)) w = (Ok false, w1) ->
  cards pt pu (prop :: rest) w = cards pt pu rest w1.
Proof.
  intros H. cbn [cards_loop].
  destruct (card_location_pair prop) as [loc other]. cbn [fst] in H.
  rewrite (gbind_lift_ok _ _ _ _ _ H). reflexivity.
Qed.

Lemma cards_keep pt pu prop rest w w1 details_url w2 price w3 :
  within (fst (card_location_pair prop)) w = (Ok true, w1) ->
  link_of (card_link prop) w1 = (Ok details_url, w2) ->
  price_of details_url w2 = (Ok price, w3) ->
  cards pt pu (prop :: rest) w =
  after_rows [record_row (card_location_pair prop) prop price (pt, pu)]
             (cards pt pu rest w3).
Proof.
  intros H1 H2 H3. cbn [cards_loop].
  destruct (card_location_pair prop) as [loc other]. cbn [fst] in H1.
  rewrite (gbind_lift_ok _ _ _ _ _ H1). cbn [negb].
  rewrite (gbind_lift_ok _ _ _ _ _ H2), (gbind_lift_ok _ _ _ _ _ H3).
  rewrite gbind_run. reflexivity.
Qed.

Lemma cards_no_href pt pu prop rest w w1 :
  within (fst (card_location_pair prop)) w = (Ok true, w1) ->
  card_link prop = Some (mkAnchor None) ->
  cards pt pu (prop :: rest) w = ([], Raise KeyError, w1).
Proof.
  intros H1 H2. cbn [cards_loop].
  destruct (card_location_pair prop) as [loc other]. cbn [fst] in H1.
  rewrite (gbind_lift_ok _ _ _ _ _ H1). cbn [negb].
  apply gbind_lift_raise. rewrite H2. reflexivity.
Qed.

Lemma link_cases (a : option Anchor) (w : World) :
  (exists details_url, link_of a w = (Ok details_url, w)) \/
  (a = Some (mkAnchor None)).
Proof.
  destruct a as [[[h |]] |]; simpl; eauto.
  - left. eexists. reflexivity.
  - left. eexists. reflexivity.
Qed.

(** *** The rows of a page *)

Lemma rows_after_rows {A} (rows : list Row) (x : list Row * Result A * World) :
  rows_of (after_rows rows x) = (rows ++ rows_of x)%list.
Proof. reflexivity. Qed.

Lemma result_after_rows {A} (rows : list Row) (x : list Row * Result A * World) :
  result_of (after_rows rows x) = result_of x.
Proof. reflexivity. Qed.

Lemma world_after_rows {A} (rows : list Row) (x : list Row * Result A * World) :
  world_of (after_rows rows x) = world_of x.
Proof. reflexivity. Qed.

(** A card loop ends normally or with the [KeyError] of a link without
    [href]; it has no loop of its own to run out of fuel. *)
Lemma cards_result pt pu props w :
  result_of (cards pt pu props w) = Ok tt \/
  result_of (cards pt pu props w) = Raise KeyError.
Proof.
  revert w. induction props as [| prop rest IH]; intros w; [left; reflexivity |].
  destruct (within_total (fst (card_location_pair prop)) w) as [[|] [w1 H1]].
  - destruct (link_cases (card_link prop) w1) as [[url H2] | H2].
    + destruct (price_total url w1) as [price [w3 H3]].
      rewrite (cards_keep _ _ _ _ _ _ _ _ _ _ H1 H2 H3), result_after_rows.
      apply IH.
    + rewrite (cards_no_href _ _ _ _ _ _ H1 H2). right. reflexivity.
  - rewrite (cards_drop _ _ _ _ _ _ H1). apply IH.
Qed.

(** Every row a card loop yields is the record of one of its cards. *)
Lemma cards_rows pt pu props w :
  Forall (fun row => exists prop, In prop props /\ record (pt, pu) prop row)
         (rows_of (cards pt pu props w)).
Proof.
  revert w. induction props as [| prop rest IH]; intros w; [constructor |].
  assert (W : forall w', Forall
            (fun row => exists p, In p (prop :: rest) /\ record (pt, pu) p row)
            (rows_of (cards pt pu rest w'))).
  { intros w'. eapply Forall_impl; [| apply IH].
    intros row [p [Hp Hr]]. exists p. split; [right; exact Hp | exact Hr]. }
  destruct (within_total (fst (card_location_pair prop)) w) as [[|] [w1 H1]].
  - destruct (link_cases (card_link prop) w1) as [[url H2] | H2].
    + destruct (price_total url w1) as [price [w3 H3]].
      rewrite (cards_keep _ _ _ _ _ _ _ _ _ _ H1 H2 H3), rows_after_rows.
      constructor; [| apply W].
      exists prop. split; [left; reflexivity |].
      exists w, w1, url, w1, w3, price. auto.
    + rewrite (cards_no_href _ _ _ _ _ _ H1 H2). constructor.
  - rewrite (cards_drop _ _ _ _ _ _ H1). apply W.
Qed.

Lemma fetch_run (url : string) (w : World) :
  fetch url w =
  match requests_get url w with
  | (inl _, w') => ([], Ok tt, w')
  | (inr soup, w') =>
      let x := cards (fst (get_property_type url)) (snd (get_property_type url))
                     (listing_cards soup) w' in
      (rows_of x, Ok tt, world_of x)
  end.
Proof.
  unfold fetch_properties, gen_try_except. rewrite gbind_run.
  unfold lift, call.
  destruct (requests_get url w) as [[e | soup] w']; [reflexivity |].
  rewrite after_rows_nil.
  destruct (get_property_type url) as [pt pu]. cbn [fst snd].
  pose proof (cards_result pt pu (listing_cards soup) w') as R.
  destruct (cards pt pu (listing_cards soup) w') as [[rows r] w''].
  unfold result_of, rows_of, world_of in *. cbn [fst snd] in *.
  destruct R as [-> | ->]; [reflexivity |].
  cbn. rewrite app_nil_r. reflexivity.
Qed.

(** No exception leaves [fetch_properties]. *)
Lemma fetch_result (url : string) (w : World) :
  result_of (fetch url w) = Ok tt.
Proof.
  rewrite fetch_run.
  destruct (requests_get url w) as [[e | soup] w']; reflexivity.
Qed.

Lemma fetch_rows (url : string) (w : World) :
  Forall (fun row => exists prop, record (get_property_type url) prop row)
         (rows_of (fetch url w)).
Proof.
  rewrite fetch_run.
  destruct (requests_get url w) as [[e | soup] w']; [constructor |].
  cbn [rows_of fst]. eapply Forall_impl; [| apply cards_rows].
  intros row [prop [_ H]]. exists prop.
  rewrite (surjective_pairing (get_property_type url)). exact H.
Qed.

(** *** The pagination loop *)

Lemma write_all_fetch (url : string) (w : World) :
  write_all World (fetch url) w =
  (rows_of (fetch url w),
   Ok (match rows_of (fetch url w) with [] => false | _ :: _ => true end),
   world_of (fetch url w)).
Proof.
  unfold write_all. pose proof (fetch_result url w) as R.
  destruct (fetch url w) as [[rows r] w']. unfold result_of in R.
  cbn [fst snd] in R. subst r. unfold rows_of, world_of. cbn [fst snd].
  destruct rows; reflexivity.
Qed.

Lemma pages_crash fuel base_url page w e w1 :
  requests_get (page_url base_url page) w = (inl e, w1) ->
  pages (S fuel) base_url page w = ([], Raise e, w1).
Proof.
  intros H. cbn [pages_loop]. apply gbind_lift_raise.
  unfold call. rewrite H. reflexivity.
Qed.

Lemma pages_step fuel base_url page w soup w1 :
  requests_get (page_url base_url page) w = (inr soup, w1) ->
  pages (S fuel) base_url page w =
  let x := fetch (page_url base_url page) w1 in
  match rows_of x with
  | [] => x
  | _ :: _ =>
      if has_next_page soup
      then after_rows (rows_of x)
             (pages fuel base_url (page + 1)%Z (world_of x))
      else x
  end.
Proof.
  intros H. cbn [pages_loop].
  erewrite gbind_lift_ok; [| unfold call; rewrite H; reflexivity].
  rewrite gbind_run, write_all_fetch. cbn zeta.
  pose proof (fetch_result (page_url base_url page) w1) as R.
  destruct (fetch (page_url base_url page) w1) as [[rows r] w2].
  unfold result_of, rows_of, world_of in *. cbn [fst snd] in *. subst r.
  destruct rows as [| row rows].
  - cbn. reflexivity.
  - cbn [negb orb]. destruct (has_next_page soup); cbn [negb].
    + reflexivity.
    + unfold after_rows, gret, rows_of, result_of, world_of. cbn [fst snd].
      rewrite app_nil_r. reflexivity.
Qed.

Lemma pages_rows fuel base_url page w :
  Forall (fun row => exists url prop, record (get_property_type url) prop row)
         (rows_of (pages fuel base_url page w)).
Proof.
  revert page w. induction fuel as [| fuel IH]; intros page w; [constructor |].
  destruct (requests_get (page_url base_url page) w) as [[e | soup] w1] eqn:G.
  - rewrite (pages_crash _ _ _ _ _ _ G). constructor.
  - rewrite (pages_step _ _ _ _ _ _ G). cbn zeta.
    assert (F : Forall
              (fun row => exists url prop, record (get_property_type url) prop row)
              (rows_of (fetch (page_url base_url page) w1))).
    { eapply Forall_impl; [| apply fetch_rows]. intros row [prop H]. eauto. }
    destruct (rows_of (fetch (page_url base_url page) w1)) as [| r rs] eqn:R.
    + rewrite R. constructor.
    + destruct (has_next_page soup); [| rewrite R; exact F].
      rewrite rows_after_rows. apply Forall_app. split; [exact F | apply IH].
Qed.

Lemma categories_rows fuel base_urls w :
  Forall (fun row => exists url prop, record (get_property_type url) prop row)
         (rows_of (categories fuel base_urls w)).
Proof.
  revert w. induction base_urls as [| base_url rest IH]; intros w; [constructor |].
  cbn [categories_loop]. rewrite gbind_run.
  pose proof (pages_rows fuel base_url 1%Z w) as P.
  destruct (pages fuel base_url 1%Z w) as [[rows [[] | e |]] w']; try exact P.
  rewrite rows_after_rows. apply Forall_app. split; [exact P | apply IH].
Qed.

Lemma scrape_rows fuel base_urls w :
  rows_of (scrape fuel base_urls w) =
  HEADER :: rows_of (categories fuel base_urls w).
Proof. unfold scrape_all_properties. rewrite gbind_run. reflexivity. Qed.

(** An unguarded page fetch that raises ends the whole run. *)
Lemma scrape_crash fuel base_url rest w e w1 :
  requests_get base_url w = (inl e, w1) ->
  scrape (S fuel) (base_url :: rest) w = ([HEADER], Raise e, w1).
Proof.
  intros H. unfold scrape_all_properties. rewrite gbind_run. cbn [emit].
  cbn [categories_loop]. rewrite gbind_run.
  rewrite (pages_crash fuel base_url 1%Z w e w1 H). reflexivity.
Qed.

(** The traversal of a category that has a last page ends. *)
Lemma pages_terminate base_url (n : nat) :
  forall page, last_page World requests_get geocode geodesic_km base_url
                 (page + Z.of_nat n) ->
  forall fuel w, (n < fuel)%nat ->
  result_of (pages fuel base_url page w) <> OutOfFuel.
Proof.
  induction n as [| n IH]; intros page L fuel w Hf;
    (destruct fuel as [| fuel]; [lia |]);
    destruct (requests_get (page_url base_url page) w) as [[e | soup] w1] eqn:G;
    try (rewrite (pages_crash _ _ _ _ _ _ G); discriminate);
    rewrite (pages_step _ _ _ _ _ _ G); cbn zeta;
    pose proof (fetch_result (page_url base_url page) w1) as R.
  - replace (page + Z.of_nat 0)%Z with page in L by lia.
    destruct (L w soup w1 G) as [E | E]; rewrite E.
    + rewrite R. discriminate.
    + destruct (rows_of (fetch (page_url base_url page) w1));
        rewrite R; discriminate.
  - destruct (rows_of (fetch (page_url base_url page) w1));
      [rewrite R; discriminate |].
    destruct (has_next_page soup); [| rewrite R; discriminate].
    rewrite result_after_rows. apply IH; [| lia].
    replace (page + 1 + Z.of_nat n)%Z with (page + Z.of_nat (S n))%Z by lia.
    exact L.
Qed.

(** *** Categories and locations *)

Lemma first_match_none table url :
  (forall key value, In (key, value) table -> ~ Substring key url) ->
  first_match table url = None.
Proof.
  induction table as [| [key value] rest IH]; intros H; [reflexivity |].
  cbn [first_match].
  rewrite (proj2 (PyStrFacts.contains_false key url)) by (apply (H key value); left; reflexivity).
  apply IH. intros k v Hin. apply (H k v). right. exact Hin.
Qed.

Lemma first_match_first earlier key value later url :
  Substring key url ->
  (forall key' value', In (key', value') earlier -> ~ Substring key' url) ->
  first_match (earlier ++ (key, value) :: later) url = Some value.
Proof.
  intros Hk. induction earlier as [| [k v] rest IH]; intros H.
  - cbn [app first_match].
    rewrite (proj2 (PyStrFacts.contains_spec key url) Hk). reflexivity.
  - cbn [app first_match].
    rewrite (proj2 (PyStrFacts.contains_false k url)) by (apply (H k v); left; reflexivity).
    apply IH. intros k' v' Hin. apply (H k' v'). right. exact Hin.
Qed.

Lemma category_values url :
  In (get_property_type url)
     [("House", "Sale"); ("Apartment", "Sale"); ("House", "Rent");
      ("Apartment", "Rent"); ("Bedsitter", "Rent"); ("Unknown", "Unknown")].
Proof.
  unfold get_property_type, property_types. cbn [first_match].
  repeat match goal with
         | |- context [contains ?k url] => destruct (contains k url)
         end; cbn [In]; auto 10.
Qed.

(** The location field of a card: its text before the first comma,
    stripped, or the placeholder. *)
Lemma location_field (prop : Card) :
  fst (card_location_pair prop) =
  match card_location prop with
  | Some text => strip (fst (split_comma text))
  | None => "None"
  end.
Proof.
  unfold card_location_pair. destruct (card_location prop) as [text |]; [| reflexivity].
  rewrite <- PyStrFacts.strip_before_strip. unfold parse_location.
  destruct (char_in comma (strip text)) eqn:C.
  - destruct (split_comma (strip text)); reflexivity.
  - rewrite (PyStrFacts.split_no_comma _ C). reflexivity.
Qed.

Lemma record_location category prop row :
  record category prop row ->
  nth_error row 0 = Some (fst (card_location_pair prop)).
Proof. intros (w0 & w1 & u & w2 & w3 & price & _ & _ & _ & ->). reflexivity. Qed.

Lemma within_true location w w1 :
  within location w = (Ok true, w1) ->
  exists c, geocode (location ++ ", Kenya") w = (inr (Some c), w1) /\
            (geodesic_km NAIROBI_COORDS c <= MAX_DISTANCE)%Q.
Proof.
  rewrite within_run.
  destruct (geocode (location ++ ", Kenya") w) as [[e | [c |]] w'];
    intros H; inversion H; subst.
  exists c. split; [reflexivity |]. apply Qle_bool_iff. assumption.
Qed.

Lemma within_far location w c :
  fst (geocode (location ++ ", Kenya") w) = inr (Some c) ->
  (MAX_DISTANCE < geodesic_km NAIROBI_COORDS c)%Q ->
  within location w = (Ok false, snd (geocode (location ++ ", Kenya") w)).
Proof.
  intros G F. rewrite within_run.
  destruct (geocode (location ++ ", Kenya") w) as [r w']. cbn [fst snd] in *.
  subst r. destruct (Qle_bool (geodesic_km NAIROBI_COORDS c) MAX_DISTANCE) eqn:E;
    [| reflexivity].
  apply Qle_bool_iff in E. exfalso. exact (Qlt_not_le _ _ F E).
Qed.

Lemma output_rows fuel base_urls w row :
  In row (tl (rows_of (scrape fuel base_urls w))) ->
  exists url prop, record (get_property_type url) prop row.
Proof.
  rewrite scrape_rows. cbn [tl]. intros H.
  exact (proj1 (Forall_forall _ _) (categories_rows fuel base_urls w) row H).
Qed.

(** *** The claims that depend on the world *)

(** C1. Every data row of the output passed the geographic filter: the
    geocoder resolved the row's location (with the country qualifier) to a
    point at most 30 km from the reference center.  A card whose location
    resolves farther away than 30 km yields no row: the loop goes on with
    the cards after it. *)
Theorem C1_output_rows_pass_geofilter :
  (forall fuel base_urls w row,
      In row (tl (rows_of (scrape fuel base_urls w))) ->
      exists location w0 c,
        nth_error row 0 = Some location /\
        fst (within location w0) = Ok true /\
        fst (geocode (location ++ ", Kenya") w0) = inr (Some c) /\
        (geodesic_km NAIROBI_COORDS c <= 30)%Q) /\
  (forall pt pu prop rest w c,
      fst (geocode (fst (card_location_pair prop) ++ ", Kenya") w) = inr (Some c) ->
      (30 < geodesic_km NAIROBI_COORDS c)%Q ->
      cards pt pu (prop :: rest) w =
      cards pt pu rest (snd (geocode (fst (card_location_pair prop) ++ ", Kenya") w))).
Proof.
  split.
  - intros fuel base_urls w row H.
    destruct (output_rows _ _ _ _ H) as (url & prop & R).
    pose proof (record_location _ _ _ R) as L.
    destruct R as (w0 & w1 & _ & _ & _ & _ & Hw & _).
    destruct (within_true _ _ _ Hw) as (c & G & D).
    exists (fst (card_location_pair prop)), w0, c.
    rewrite Hw, G. auto.
  - intros pt pu prop rest w c G F.
    apply cards_drop. apply (within_far _ _ c G F).
Qed.

(** C2. The filter answers true exactly when the geocoder resolves the
    text followed by ", Kenya" and the distance from the reference center
    is at most 30, a distance of exactly 30 included; it answers false
    when the geocoder finds nothing or raises, and never raises itself. *)
Theorem C2_geofilter_decision (location : string) (w : World) :
  (exists b, fst (within location w) = Ok b) /\
  (fst (within location w) = Ok true <->
   exists c, fst (geocode (location ++ ", Kenya") w) = inr (Some c) /\
             (geodesic_km NAIROBI_COORDS c <= 30)%Q) /\
  (forall c, fst (geocode (location ++ ", Kenya") w) = inr (Some c) ->
             (geodesic_km NAIROBI_COORDS c == 30)%Q ->
             fst (within location w) = Ok true) /\
  (fst (geocode (location ++ ", Kenya") w) = inr None ->
   fst (within location w) = Ok false) /\
  (forall e, fst (geocode (location ++ ", Kenya") w) = inl e ->
             fst (within location w) = Ok false).
Proof.
  rewrite within_run.
  destruct (geocode (location ++ ", Kenya") w) as [[e | [c |]] w']; cbn [fst].
  - repeat split; eauto; try discriminate.
    intros (c & H & _). discriminate.
  - repeat split; eauto; try discriminate.
    + intros H. exists c. split; [reflexivity |].
      apply Qle_bool_iff. injection H as H. exact H.
    + intros (c' & H & D). injection H as <-.
      apply Qle_bool_iff in D. unfold MAX_DISTANCE. rewrite D. reflexivity.
    + intros c' H D. injection H as <-.
      assert (L : (geodesic_km NAIROBI_COORDS c <= 30)%Q)
        by (rewrite D; apply Qle_refl).
      apply Qle_bool_iff in L. unfold MAX_DISTANCE. rewrite L. reflexivity.
  - repeat split; eauto; try discriminate.
    intros (c & H & _). discriminate.
Qed.

(** C4, as amended. For an accepted card without a detail link, the price
    lookup is run on the placeholder URL "None" and the row carries what it
    returns, which is "None" whenever that fetch raises.  For a card whose
    detail-page fetch raises, the price is "None"; in both cases the loop
    goes on with the next card. *)
Theorem C4_price_placeholder pt pu prop rest w w1 :
  within (fst (card_location_pair prop)) w = (Ok true, w1) ->
  (card_link prop = None ->
   exists price w2,
     price_of "None" w1 = (Ok price, w2) /\
     cards pt pu (prop :: rest) w =
       after_rows [record_row (card_location_pair prop) prop price (pt, pu)]
                  (cards pt pu rest w2) /\
     (forall e, fst (requests_get "None" w1) = inl e -> price = "None")) /\
  (forall h e w2,
     card_link prop = Some (mkAnchor (Some h)) ->
     requests_get (BASE_ORIGIN ++ h) w1 = (inl e, w2) ->
     cards pt pu (prop :: rest) w =
       after_rows [record_row (card_location_pair prop) prop "None" (pt, pu)]
                  (cards pt pu rest w2)).
Proof.
  intros H1. split.
  - intros L. destruct (price_total "None" w1) as (price & w2 & H3).
    exists price, w2. split; [exact H3 |]. split.
    + apply (cards_keep _ _ _ _ _ w1 "None" w1 _ _ H1); [| exact H3].
      rewrite L. reflexivity.
    + intros e G. rewrite price_run in H3.
      destruct (requests_get "None" w1) as [[e' | soup] w']; cbn [fst] in G.
      * inversion H3. reflexivity.
      * discriminate.
  - intros h e w2 L G.
    apply (cards_keep _ _ _ _ _ w1 (BASE_ORIGIN ++ h) w1 _ _ H1).
    + rewrite L. reflexivity.
    + rewrite price_run, G. reflexivity.
Qed.

(** C5, as amended. A card without a location node gets the placeholder
    "None" in both location fields.  The filter is consulted on the
    location field of every card, the placeholder included: a card it
    rejects is dropped, and every row that is yielded belongs to a card
    whose location field the filter accepted. *)
Theorem C5_filter_on_every_card :
  (forall prop, card_location prop = None ->
                card_location_pair prop = ("None", "None")) /\
  (forall pt pu prop rest w,
      exists b w1,
        within (fst (card_location_pair prop)) w = (Ok b, w1) /\
        (b = false -> cards pt pu (prop :: rest) w = cards pt pu rest w1)) /\
  (forall pt pu props w row,
      In row (rows_of (cards pt pu props w)) ->
      exists prop w0 w1,
        In prop props /\
        nth_error row 0 = Some (fst (card_location_pair prop)) /\
        within (fst (card_location_pair prop)) w0 = (Ok true, w1)).
Proof.
  split; [| split].
  - intros prop H. unfold card_location_pair. rewrite H. reflexivity.
  - intros pt pu prop rest w.
    destruct (within_total (fst (card_location_pair prop)) w) as (b & w1 & H).
    exists b, w1. split; [exact H |]. intros ->. apply cards_drop. exact H.
  - intros pt pu props w row H.
    destruct (proj1 (Forall_forall _ _) (cards_rows pt pu props w) row H)
      as (prop & Hin & R).
    pose proof (record_location _ _ _ R) as L.
    destruct R as (w0 & w1 & _ & _ & _ & _ & Hw & _).
    exists prop, w0, w1. auto.
Qed.

(** C6. In the traversal of a category, page 1 is fetched at the base URL
    and page n > 1 at the base URL followed by "?page=n".  After a page is
    fetched, the loop stops exactly when the page yields no record or shows
    no next-page indicator, and otherwise goes on with the next page.  If
    some later page is a last page, the traversal ends within that many
    iterations. *)
Theorem C6_pagination (base_url : string) :
  page_url base_url 1 = base_url /\
  (forall n, (1 < n)%Z -> page_url base_url n = base_url ++ "?page=" ++ str_of_Z n) /\
  (forall fuel page w soup w1,
      requests_get (page_url base_url page) w = (inr soup, w1) ->
      let x := fetch (page_url base_url page) w1 in
      ((rows_of x = [] \/ has_next_page soup = false) ->
       pages (S fuel) base_url page w = (rows_of x, Ok tt, world_of x)) /\
      ((rows_of x <> [] /\ has_next_page soup = true) ->
       pages (S fuel) base_url page w =
         after_rows (rows_of x)
           (pages fuel base_url (page + 1)%Z (world_of x)))) /\
  (forall page n,
      last_page World requests_get geocode geodesic_km base_url (page + Z.of_nat n) ->
      forall fuel w, (n < fuel)%nat ->
      result_of (pages fuel base_url page w) <> OutOfFuel).
Proof.
  split; [reflexivity | split; [| split]].
  - intros n H. unfold page_url.
    destruct (n >? 1)%Z eqn:E; [reflexivity | lia].
  - intros fuel page w soup w1 G x. subst x.
    rewrite (pages_step _ _ _ _ _ _ G). cbn zeta.
    pose proof (fetch_result (page_url base_url page) w1) as R.
    destruct (fetch (page_url base_url page) w1) as [[rows r] w2].
    unfold result_of, rows_of, world_of in *. cbn [fst snd] in *. subst r.
    split.
    + intros [-> | N]; [reflexivity |].
      rewrite N. destruct rows; reflexivity.
    + intros [N ->]. destruct rows; [congruence | reflexivity].
  - intros page n L fuel w Hf. exact (pages_terminate base_url n page L fuel w Hf).
Qed.

End PipelineFacts.

(** *** The claims about pure functions *)

(** C7. [get_property_type] is a function of the URL alone.  It returns
    the pair of the first of the five keys, in table order, that occurs in
    the URL as a substring, and ("Unknown", "Unknown") when none of the
    five keys occurs. *)
Theorem C7_category_resolver (url : string) :
  property_types =
    [ ("houses-for-sale", ("House", "Sale"));
      ("flats-apartments-for-sale", ("Apartment", "Sale"));
      ("houses-for-rent", ("House", "Rent"));
      ("flats-apartments-for-rent", ("Apartment", "Rent"));
      ("bedsitters-for-rent", ("Bedsitter", "Rent")) ] /\
  (forall earlier key value later,
      property_types = (earlier ++ (key, value) :: later)%list ->
      Substring key url ->
      (forall key' value', In (key', value') earlier -> ~ Substring key' url) ->
      get_property_type url = value) /\
  ((forall key value, In (key, value) property_types -> ~ Substring key url) ->
   get_property_type url = ("Unknown", "Unknown")).
Proof.
  split; [reflexivity | split].
  - intros earlier key value later E Hk Hn. unfold get_property_type.
    rewrite E, (first_match_first earlier key value later url Hk Hn).
    reflexivity.
  - intros H. unfold get_property_type.
    rewrite (first_match_none property_types url H). reflexivity.
Qed.

(** C8. A location text with a comma is split at its first comma and both
    parts are stripped; a text without a comma gives the stripped text and
    the empty string. *)
Theorem C8_parse_location (location_text : string) :
  (forall before after,
      location_text = before ++ "," ++ after ->
      char_in comma before = false ->
      parse_location location_text = (strip before, strip after)) /\
  (char_in comma location_text = false ->
   parse_location location_text = (strip location_text, "")) /\
  trimmed (fst (parse_location location_text)) /\
  trimmed (snd (parse_location location_text)).
Proof.
  split; [| split].
  - intros before after -> H. unfold parse_location.
    change ("," ++ after) with (String comma after).
    rewrite PyStrFacts.char_in_app, (PyStrFacts.split_at_first_comma _ _ H).
    reflexivity.
  - intros H. unfold parse_location. rewrite H. reflexivity.
  - unfold parse_location. destruct (char_in comma location_text).
    + destruct (split_comma location_text) as [a b].
      split; apply PyStrFacts.strip_trimmed.
    + split; [apply PyStrFacts.strip_trimmed |].
      split; intros c E; discriminate.
Qed.

(** ** Concrete runs *)

Example strip_run : strip "  Karen  Hardy " = "Karen  Hardy".
Proof. reflexivity. Qed.

Example page_url_run :
  page_url Sim.houses_for_sale 12 =
  "https://www.buyrentkenya.com/houses-for-sale?page=12".
Proof. reflexivity. Qed.

Example sample_run :
  rows_of (Sim.run_scrape Sim.sample_net 5 [Sim.houses_for_sale] []) =
  [HEADER; Sim.karen_row].
Proof. vm_compute. reflexivity. Qed.

(** A failure of the fetch inside [fetch_properties] is absorbed: the page
    counts as empty and the run goes on to the next category. *)
Example guarded_fetch_failure_is_absorbed :
  Sim.run_scrape Sim.flaky_net 5 [Sim.houses_for_sale; Sim.flats_for_rent] [] =
  ([HEADER], Ok tt,
   [Sim.Get Sim.houses_for_sale; Sim.Get Sim.houses_for_sale;
    Sim.Get Sim.flats_for_rent; Sim.Get Sim.flats_for_rent]).
Proof. vm_compute. reflexivity. Qed.

Lemma C1_witness :
  (exists location w0 c,
      nth_error Sim.karen_row 0 = Some location /\
      fst (is_within_nairobi_area Sim.World (Sim.geocode Sim.sample_net)
             Sim.flat_km location w0) = Ok true /\
      fst (Sim.geocode Sim.sample_net (location ++ ", Kenya") w0) = inr (Some c) /\
      (Sim.flat_km NAIROBI_COORDS c <= 30)%Q) /\
  cards_loop Sim.World (Sim.requests_get Sim.sample_net)
    (Sim.geocode Sim.sample_net) Sim.flat_km "House" "Sale" [Sim.card_nyali] [] =
  ([], Ok tt, [Sim.Geocode "Nyali, Kenya"]).
Proof.
  destruct (C1_output_rows_pass_geofilter Sim.World
              (Sim.requests_get Sim.sample_net) (Sim.geocode Sim.sample_net)
              Sim.flat_km) as [A B].
  split.
  - apply (A 5%nat [Sim.houses_for_sale] [] Sim.karen_row).
    vm_compute. left. reflexivity.
  - rewrite (B "House" "Sale" Sim.card_nyali [] []
               ((-40435 # 10000)%Q, (397036 # 10000)%Q)).
    + reflexivity.
    + reflexivity.
    + vm_compute. reflexivity.
Defined.

Lemma C2_witness :
  fst (is_within_nairobi_area Sim.World (Sim.geocode Sim.sample_net)
         Sim.flat_km "Edge" []) = Ok true /\
  fst (is_within_nairobi_area Sim.World (Sim.geocode Sim.sample_net)
         Sim.flat_km "Atlantis" []) = Ok false /\
  fst (is_within_nairobi_area Sim.World (Sim.geocode Sim.geocoder_down_net)
         Sim.flat_km "Karen" []) = Ok false.
Proof.
  split; [| split].
  - destruct (C2_geofilter_decision Sim.World (Sim.geocode Sim.sample_net)
                Sim.flat_km "Edge" []) as (_ & _ & H & _).
    apply (H ((-12921 # 10000) + (30 # 111), (368219 # 10000))%Q).
    + reflexivity.
    + vm_compute. reflexivity.
  - destruct (C2_geofilter_decision Sim.World (Sim.geocode Sim.sample_net)
                Sim.flat_km "Atlantis" []) as (_ & _ & _ & H & _).
    apply H. reflexivity.
  - destruct (C2_geofilter_decision Sim.World (Sim.geocode Sim.geocoder_down_net)
                Sim.flat_km "Karen" []) as (_ & _ & _ & _ & H).
    apply (H GeocoderError). reflexivity.
Defined.

(** C3. With the first category's listing URL unreachable, the fetch in
    the pagination loop raises, nothing catches it, and the run ends with
    exit status 1 before the second category is visited. *)
Lemma C3_page_fetch_failure_ends_run :
  Sim.run_scrape Sim.offline_net 5 [Sim.houses_for_sale; Sim.flats_for_rent] [] =
  ([HEADER], Raise RequestException, [Sim.Get Sim.houses_for_sale]) /\
  exit_status
    (result_of (Sim.run_scrape Sim.offline_net 5
                  [Sim.houses_for_sale; Sim.flats_for_rent] [])) = Some 1%Z.
Proof. split; vm_compute; reflexivity. Qed.

(** C4, counterexample. An accepted card without a detail link: the row
    is written with the price "None", and the price lookup did run, as the
    request for the URL "None" in the log shows. *)
Lemma C4_price_lookup_runs_without_link :
  card_link Sim.card_kilimani_nolink = None /\
  rows_of (Sim.run_fetch Sim.nolink_net Sim.houses_for_sale []) = [Sim.kilimani_row] /\
  world_of (Sim.run_fetch Sim.nolink_net Sim.houses_for_sale []) =
  [Sim.Get Sim.houses_for_sale; Sim.Geocode "Kilimani, Kenya"; Sim.Get "None"].
Proof. repeat split; vm_compute; reflexivity. Qed.

Lemma C4_witness :
  cards_loop Sim.World (Sim.requests_get Sim.nolink_net)
    (Sim.geocode Sim.nolink_net) Sim.flat_km "House" "Sale"
    [Sim.card_kilimani_nolink] [] =
  ([Sim.kilimani_row], Ok tt, [Sim.Geocode "Kilimani, Kenya"; Sim.Get "None"]) /\
  cards_loop Sim.World (Sim.requests_get Sim.edge_unreachable_net)
    (Sim.geocode Sim.edge_unreachable_net) Sim.flat_km "House" "Sale"
    [Sim.card_edge] [] =
  ([["Edge"; ""; "None"; "None"; "None"; "None"; "House"; "Sale"]], Ok tt,
   [Sim.Geocode "Edge, Kenya";
    Sim.Get "https://www.buyrentkenya.com/listings/edge"]).
Proof.
  split.
  - destruct (C4_price_placeholder Sim.World (Sim.requests_get Sim.nolink_net)
                (Sim.geocode Sim.nolink_net) Sim.flat_km "House" "Sale"
                Sim.card_kilimani_nolink [] [] [Sim.Geocode "Kilimani, Kenya"])
      as [A _]; [vm_compute; reflexivity |].
    destruct (A eq_refl) as (price & w2 & P & C & N).
    rewrite C. rewrite (N RequestException eq_refl).
    vm_compute in P. injection P as _ <-. reflexivity.
  - destruct (C4_price_placeholder Sim.World
                (Sim.requests_get Sim.edge_unreachable_net)
                (Sim.geocode Sim.edge_unreachable_net) Sim.flat_km "House" "Sale"
                Sim.card_edge [] [] [Sim.Geocode "Edge, Kenya"])
      as [_ B]; [vm_compute; reflexivity |].
    rewrite (B "/listings/edge" RequestException
               [Sim.Geocode "Edge, Kenya";
                Sim.Get "https://www.buyrentkenya.com/listings/edge"]
               eq_refl eq_refl).
    reflexivity.
Defined.

(** C5, counterexample. A page whose one card has no location node: the
    geocoder is still queried, with the placeholder followed by the
    country. *)
Lemma C5_filter_consulted_on_placeholder :
  card_location Sim.card_nolocation = None /\
  world_of (Sim.run_fetch Sim.nolocation_net Sim.houses_for_sale []) =
  [Sim.Get Sim.houses_for_sale; Sim.Geocode "None, Kenya"].
Proof. split; vm_compute; reflexivity. Qed.

Lemma C5_witness :
  card_location_pair Sim.card_nolocation = ("None", "None") /\
  cards_loop Sim.World (Sim.requests_get Sim.nolocation_net)
    (Sim.geocode Sim.nolocation_net) Sim.flat_km "House" "Sale"
    [Sim.card_nolocation] [] = ([], Ok tt, [Sim.Geocode "None, Kenya"]) /\
  (exists prop w0 w1,
      In prop [Sim.card_karen; Sim.card_nyali] /\
      nth_error Sim.karen_row 0 = Some (fst (card_location_pair prop)) /\
      is_within_nairobi_area Sim.World (Sim.geocode Sim.sample_net) Sim.flat_km
        (fst (card_location_pair prop)) w0 = (Ok true, w1)).
Proof.
  split; [| split].
  - destruct (C5_filter_on_every_card Sim.World
                (Sim.requests_get Sim.nolocation_net)
                (Sim.geocode Sim.nolocation_net) Sim.flat_km) as (A & _ & _).
    apply A. reflexivity.
  - destruct (C5_filter_on_every_card Sim.World
                (Sim.requests_get Sim.nolocation_net)
                (Sim.geocode Sim.nolocation_net) Sim.flat_km) as (_ & B & _).
    destruct (B "House" "Sale" Sim.card_nolocation [] []) as (b & w1 & W & D).
    vm_compute in W. injection W as <- <-.
    rewrite (D eq_refl). reflexivity.
  - destruct (C5_filter_on_every_card Sim.World
                (Sim.requests_get Sim.sample_net)
                (Sim.geocode Sim.sample_net) Sim.flat_km) as (_ & _ & C).
    apply (C "House" "Sale" [Sim.card_karen; Sim.card_nyali] [] Sim.karen_row).
    vm_compute. left. reflexivity.
Defined.

Lemma C6_witness :
  page_url Sim.houses_for_sale 2 = Sim.houses_for_sale ++ "?page=" ++ str_of_Z 2 /\
  pages_loop Sim.World (Sim.requests_get Sim.sample_net)
    (Sim.geocode Sim.sample_net) Sim.flat_km 1 Sim.houses_for_sale 2
    [] =
  ([], Ok tt,
   [Sim.Get "https://www.buyrentkenya.com/houses-for-sale?page=2";
    Sim.Get "https://www.buyrentkenya.com/houses-for-sale?page=2"]) /\
  result_of (pages_loop Sim.World (Sim.requests_get Sim.sample_net)
               (Sim.geocode Sim.sample_net) Sim.flat_km 2 Sim.houses_for_sale 1
               []) <> OutOfFuel.
Proof.
  destruct (C6_pagination Sim.World (Sim.requests_get Sim.sample_net)
              (Sim.geocode Sim.sample_net) Sim.flat_km Sim.houses_for_sale)
    as (_ & U & St & T).
  split; [| split].
  - apply U. lia.
  - destruct (St 0%nat 2%Z [] Sim.blank_page
                [Sim.Get "https://www.buyrentkenya.com/houses-for-sale?page=2"]
                eq_refl) as [Stop _].
    rewrite Stop; [reflexivity | left; reflexivity].
  - apply (T 1%Z 1%nat); [| lia].
    intros w soup w1 G. left. reflexivity.
Defined.

Lemma C7_witness :
  get_property_type Sim.houses_for_sale = ("House", "Sale") /\
  get_property_type "https://www.buyrentkenya.com/land-for-sale" =
  ("Unknown", "Unknown").
Proof.
  split.
  - destruct (C7_category_resolver Sim.houses_for_sale) as (_ & F & _).
    apply (F [] "houses-for-sale" ("House", "Sale")
             (tl property_types) eq_refl).
    + exists "https://www.buyrentkenya.com/", "". reflexivity.
    + intros key' value' [].
  - destruct (C7_category_resolver "https://www.buyrentkenya.com/land-for-sale")
      as (_ & _ & N).
    apply N. intros key value H. apply PyStrFacts.contains_false.
    cbn [In property_types] in H.
    destruct H as [H | [H | [H | [H | [H | []]]]]];
      injection H as <- _; reflexivity.
Defined.

Lemma C8_witness :
  parse_location " Kilimani , Nairobi, KE " = ("Kilimani", "Nairobi, KE") /\
  parse_location "  Karen " = ("Karen", "").
Proof.
  split.
  - destruct (C8_parse_location " Kilimani , Nairobi, KE ") as (Sp & _).
    apply (Sp " Kilimani " " Nairobi, KE "); reflexivity.
  - destruct (C8_parse_location "  Karen ") as (_ & N & _).
    apply N. reflexivity.
Defined.

(** ** Further facts about the string operations *)

Module PyStrMore.

(** A key without the character [c] that starts a text of the form
    [base ++ c ++ rest] already starts [base]. *)
Lemma startswith_before_mark (c : ascii) (key base rest : string) :
  char_in c key = false ->
  startswith key (base ++ String c rest) = startswith key base.
Proof.
  revert base. induction key as [| a key IH]; intros base H.
  - destruct base; reflexivity.
  - cbn [char_in] in H. apply orb_false_iff in H. destruct H as [H1 H2].
    destruct base as [| b base]; cbn [append startswith].
    + rewrite Ascii.eqb_sym, H1. reflexivity.
    + rewrite (IH base H2). reflexivity.
Qed.

Lemma contains_before_mark (c : ascii) (key base rest : string) :
  char_in c key = false ->
  contains key rest = false ->
  contains key (base ++ String c rest) = contains key base.
Proof.
  intros H R. induction base as [| b base IH].
  - cbn [append contains]. rewrite R.
    pose proof (startswith_before_mark c key "" rest H) as P.
    cbn [append] in P. rewrite P. reflexivity.
  - change (String b base ++ String c rest) with (String b (base ++ String c rest)).
    cbn [contains]. rewrite IH.
    rewrite <- (startswith_before_mark c key (String b base) rest H).
    reflexivity.
Qed.

Lemma startswith_chars (c : ascii) (key s : string) :
  startswith key s = true -> char_in c key = true -> char_in c s = true.
Proof.
  revert s. induction key as [| a key IH]; intros s H K; [discriminate |].
  destruct s as [| b s]; [discriminate |].
  cbn [startswith] in H. apply andb_true_iff in H. destruct H as [E H].
  apply Ascii.eqb_eq in E. subst b.
  cbn [char_in] in *. apply orb_true_iff in K. destruct K as [K | K].
  - rewrite K. reflexivity.
  - rewrite (IH s H K). apply orb_true_r.
Qed.

(** A key with a character that the text lacks does not occur in it. *)
Lemma contains_char_missing (c : ascii) (key s : string) :
  char_in c key = true -> char_in c s = false -> contains key s = false.
Proof.
  intros K. induction s as [| b s IH]; intros H.
  - cbn [contains]. rewrite orb_false_r.
    destruct (startswith key "") eqn:E; [| reflexivity].
    rewrite (startswith_chars c key "" E K) in H. discriminate.
  - cbn [contains].
    destruct (startswith key (String b s)) eqn:E.
    + rewrite (startswith_chars c key _ E K) in H. discriminate.
    + cbn [char_in] in H. apply orb_false_iff in H. destruct H as [_ H].
      rewrite (IH H). reflexivity.
Qed.

Lemma digits_no_char (c : ascii) (d : Decimal.uint) :
  (forall e, In e ["0"; "1"; "2"; "3"; "4"; "5"; "6"; "7"; "8"; "9"]%char ->
             Ascii.eqb c e = false) ->
  char_in c (NilEmpty.string_of_uint d) = false.
Proof.
  intros H. induction d; cbn [NilEmpty.string_of_uint char_in];
    try reflexivity; rewrite IHd, H; cbn [In]; auto 12.
Qed.

Lemma str_of_Z_no_hyphen (n : Z) :
  (0 < n)%Z -> char_in "-"%char (str_of_Z n) = false.
Proof.
  intros H. destruct n as [| p | p]; try lia.
  unfold str_of_Z. cbn [Z.to_int NilZero.string_of_int].
  assert (D : char_in "-"%char (NilEmpty.string_of_uint (Pos.to_uint p)) = false).
  { apply digits_no_char. intros e He. cbn [In] in He.
    repeat (destruct He as [<- | He]; [reflexivity |]). destruct He. }
  unfold NilZero.string_of_uint. destruct (Pos.to_uint p); exact D.
Qed.

(** The split of a text with a comma puts the text back together. *)
Lemma split_comma_join (s : string) :
  char_in comma s = true ->
  s = fst (split_comma s) ++ String comma (snd (split_comma s)).
Proof.
  induction s as [| c s IH]; cbn [char_in split_comma]; [discriminate |].
  intros H. destruct (Ascii.eqb c comma) eqn:C.
  - apply Ascii.eqb_eq in C. subst c. reflexivity.
  - rewrite Ascii.eqb_sym, C in H. cbn [orb] in H.
    specialize (IH H). destruct (split_comma s) as [a b].
    cbn [fst snd append] in *. rewrite <- IH. reflexivity.
Qed.

(** [lstrip] removes a whitespace prefix, [rstrip] a whitespace suffix. *)
Lemma lstrip_split (s : string) :
  exists l, s = l ++ lstrip s /\ all_space l = true.
Proof.
  induction s as [| c s (l & E & A)].
  - exists "". split; reflexivity.
  - cbn [lstrip]. destruct (isspace c) eqn:S.
    + exists (String c l). cbn [append all_space]. rewrite <- E, S, A. auto.
    + exists "". split; reflexivity.
Qed.

Lemma rstrip_split (s : string) :
  exists r, s = rstrip s ++ r /\ all_space r = true.
Proof.
  induction s as [| c s (r & E & A)].
  - exists "". split; reflexivity.
  - cbn [rstrip]. destruct (isspace c && is_empty (rstrip s)) eqn:S.
    + apply andb_true_iff in S. destruct S as [S1 S2].
      apply PyStrFacts.is_empty_eq in S2. rewrite S2 in E. cbn [append] in E.
      exists (String c r). split.
      * rewrite E. reflexivity.
      * cbn [all_space]. rewrite S1, A. reflexivity.
    + exists r. cbn [append]. rewrite <- E. auto.
Qed.

End PyStrMore.

(** ** Further properties of the pure functions *)

Lemma strip_split (s : string) :
  exists l r, s = l ++ strip s ++ r /\ all_space l = true /\ all_space r = true.
Proof.
  destruct (PyStrMore.lstrip_split s) as (l & El & Al).
  destruct (PyStrMore.rstrip_split (lstrip s)) as (r & Er & Ar).
  exists l, r. unfold strip. rewrite <- Er, <- El. auto.
Qed.

(** X1. [parse_location] loses nothing but the first comma and the
    whitespace around the two parts: a text with a comma is the location,
    the comma and the other details, each part wrapped in whitespace; a
    text without a comma is the location wrapped in whitespace, and the
    other details are empty. *)
Theorem parse_location_lossless (location_text : string) :
  (char_in comma location_text = true ->
   exists l1 r1 l2 r2,
     location_text =
       (l1 ++ fst (parse_location location_text) ++ r1) ++ "," ++
       (l2 ++ snd (parse_location location_text) ++ r2) /\
     all_space l1 = true /\ all_space r1 = true /\
     all_space l2 = true /\ all_space r2 = true /\
     char_in comma (fst (parse_location location_text)) = false) /\
  (char_in comma location_text = false ->
   exists l r,
     location_text = l ++ fst (parse_location location_text) ++ r /\
     all_space l = true /\ all_space r = true /\
     snd (parse_location location_text) = "").
Proof.
  unfold parse_location. split; intros H; rewrite H.
  - pose proof (PyStrMore.split_comma_join location_text H) as J.
    pose proof (PyStrFacts.before_no_comma location_text) as N.
    destruct (split_comma location_text) as [a b]. cbn [fst snd] in *.
    destruct (strip_split a) as (l1 & r1 & E1 & A1 & B1).
    destruct (strip_split b) as (l2 & r2 & E2 & A2 & B2).
    exists l1, r1, l2, r2. rewrite <- E1, <- E2.
    repeat split; auto. apply PyStrFacts.char_in_strip, N.
  - destruct (strip_split location_text) as (l & r & E & A & B).
    exists l, r. cbn [fst snd]. auto.
Qed.

Lemma parse_location_lossless_witness :
  (exists l1 r1 l2 r2,
      " Kilimani , Nairobi, KE " =
        (l1 ++ fst (parse_location " Kilimani , Nairobi, KE ") ++ r1) ++ "," ++
        (l2 ++ snd (parse_location " Kilimani , Nairobi, KE ") ++ r2) /\
      all_space l1 = true /\ all_space r1 = true /\
      all_space l2 = true /\ all_space r2 = true /\
      char_in comma (fst (parse_location " Kilimani , Nairobi, KE ")) = false) /\
  (exists l r,
      "  Karen " = l ++ fst (parse_location "  Karen ") ++ r /\
      all_space l = true /\ all_space r = true /\
      snd (parse_location "  Karen ") = "").
Proof.
  split.
  - apply (proj1 (parse_location_lossless " Kilimani , Nairobi, KE ")).
    reflexivity.
  - apply (proj2 (parse_location_lossless "  Karen ")). reflexivity.
Defined.

(** X2. Parsing a location field again changes nothing: the location
    that [parse_location] returns parses to itself with empty other
    details. *)
Theorem parse_location_stable (location_text : string) :
  parse_location (fst (parse_location location_text)) =
  (fst (parse_location location_text), "").
Proof.
  assert (N : char_in comma (fst (parse_location location_text)) = false).
  { unfold parse_location. destruct (char_in comma location_text) eqn:C.
    - pose proof (PyStrFacts.before_no_comma location_text) as B.
      destruct (split_comma location_text) as [a b]. cbn [fst] in *.
      apply PyStrFacts.char_in_strip, B.
    - cbn [fst]. apply PyStrFacts.char_in_strip, C. }
  assert (I : strip (fst (parse_location location_text)) =
              fst (parse_location location_text)).
  { unfold parse_location. destruct (char_in comma location_text).
    - destruct (split_comma location_text) as [a b]. cbn [fst].
      apply PyStrFacts.strip_idem.
    - cbn [fst]. apply PyStrFacts.strip_idem. }
  unfold parse_location at 1. rewrite N, I. reflexivity.
Qed.

Lemma page_url_category (base_url : string) (page : Z) :
  get_property_type (page_url base_url page) = get_property_type base_url.
Proof.
  unfold page_url. destruct (page >? 1)%Z eqn:P; [| reflexivity].
  assert (K : forall key,
             char_in "?"%char key = false -> char_in "-"%char key = true ->
             contains key (base_url ++ "?page=" ++ str_of_Z page) =
             contains key base_url).
  { intros key Q Hy.
    change (base_url ++ "?page=" ++ str_of_Z page)
      with (base_url ++ String "?"%char ("page=" ++ str_of_Z page)).
    apply PyStrMore.contains_before_mark; [exact Q |].
    apply (PyStrMore.contains_char_missing "-"%char); [exact Hy |].
    cbn [append char_in Ascii.eqb Bool.eqb orb andb].
    apply PyStrMore.str_of_Z_no_hyphen. lia. }
  unfold get_property_type, property_types. cbn [first_match].
  rewrite !K by reflexivity. reflexivity.
Qed.

(** X3. The page number does not change the category: the URL of any
    page of a category resolves to the same pair as the base URL. *)
Theorem category_of_page (base_url : string) (page : Z) :
  get_property_type (page_url base_url page) = get_property_type base_url.
Proof. exact (page_url_category base_url page). Qed.

(** ** Further properties of the pipeline *)

Section PipelineMore.

Variable World : Type.
Variable requests_get : string -> World -> (Exn + Soup) * World.
Variable geocode : string -> World -> (Exn + option Coords) * World.
Variable geodesic_km : Coords -> Coords -> Q.

Local Abbreviation within := (is_within_nairobi_area World geocode geodesic_km).
Local Abbreviation price_of := (extract_price World requests_get).
Local Abbreviation link_of := (details_url_of World).
Local Abbreviation cards := (cards_loop World requests_get geocode geodesic_km).
Local Abbreviation fetch := (fetch_properties World requests_get geocode geodesic_km).
Local Abbreviation pages := (pages_loop World requests_get geocode geodesic_km).
Local Abbreviation categories := (categories_loop World requests_get geocode geodesic_km).
Local Abbreviation scrape := (scrape_all_properties World requests_get geocode geodesic_km).
Local Abbreviation record := (record_of World requests_get geocode geodesic_km).
Local Abbreviation final_page := (last_page World requests_get geocode geodesic_km).

Ltac trimmed_literal :=
  split; intros ? E; cbn in E;
  first [discriminate | injection E as <-; reflexivity].

Lemma trimmed_text_or_None (node : option string) : trimmed (text_or_None node).
Proof.
  destruct node as [t |]; [apply PyStrFacts.strip_trimmed | trimmed_literal].
Qed.

Lemma trimmed_location_pair (prop : Card) :
  trimmed (fst (card_location_pair prop)) /\
  trimmed (snd (card_location_pair prop)).
Proof.
  unfold card_location_pair. destruct (card_location prop) as [text |].
  - unfold parse_location. destruct (char_in comma (strip text)).
    + destruct (split_comma (strip text)) as [a b].
      split; apply PyStrFacts.strip_trimmed.
    + split; [apply PyStrFacts.strip_trimmed | trimmed_literal].
  - split; trimmed_literal.
Qed.

Lemma trimmed_category (url : string) :
  trimmed (fst (get_property_type url)) /\ trimmed (snd (get_property_type url)).
Proof.
  pose proof (category_values url) as V. cbn [In] in V.
  destruct V as [V | [V | [V | [V | [V | [V | []]]]]]]; rewrite <- V;
    split; trimmed_literal.
Qed.

(** X4. [extract_price] never raises.  It makes the one request for the
    detail URL; its result is the stripped text of the price node when the
    request succeeds and the node is there, and "None" otherwise; in both
    cases it has no whitespace at either end. *)
Theorem extract_price_safe (details_url : string) (w : World) :
  exists price,
    price_of details_url w = (Ok price, snd (requests_get details_url w)) /\
    trimmed price /\
    match fst (requests_get details_url w) with
    | inr soup => price = text_or_None (price_span soup)
    | inl _ => price = "None"
    end.
Proof.
  rewrite price_run.
  destruct (requests_get details_url w) as [[e | soup] w']; cbn [fst snd].
  - exists "None". split; [reflexivity | split; [trimmed_literal | reflexivity]].
  - exists (text_or_None (price_span soup)).
    split; [reflexivity | split; [apply trimmed_text_or_None | reflexivity]].
Qed.

(** *** The cards of a page, in order *)

Lemma cards_split pt pu (first rest : list Card) (w : World) :
  cards pt pu (first ++ rest) w =
  match result_of (cards pt pu first w) with
  | Ok _ => after_rows (rows_of (cards pt pu first w))
              (cards pt pu rest (world_of (cards pt pu first w)))
  | _ => cards pt pu first w
  end.
Proof.
  revert w. induction first as [| prop first IH]; intros w.
  - cbn [app]. symmetry. apply after_rows_nil.
  - cbn [app].
    destruct (within_total World geocode geodesic_km
                (fst (card_location_pair prop)) w) as [[|] [w1 H1]].
    + destruct (link_cases World (card_link prop) w1) as [[url H2] | H2].
      * destruct (price_total World requests_get url w1) as [price [w3 H3]].
        rewrite (cards_keep _ _ _ _ _ _ _ (first ++ rest) _ _ _ _ _ _ H1 H2 H3).
        rewrite (cards_keep _ _ _ _ _ _ _ first _ _ _ _ _ _ H1 H2 H3).
        rewrite result_after_rows, IH.
        destruct (result_of (cards pt pu first w3)); reflexivity.
      * rewrite (cards_no_href _ _ _ _ _ _ _ (first ++ rest) _ _ H1 H2).
        rewrite (cards_no_href _ _ _ _ _ _ _ first _ _ H1 H2). reflexivity.
    + rewrite (cards_drop _ _ _ _ _ _ _ (first ++ rest) _ _ H1).
      rewrite (cards_drop _ _ _ _ _ _ _ first _ _ H1). apply IH.
Qed.

(** X5. The cards of a page are processed in order: the rows of a card
    list are the rows of its first part followed by the rows of the rest,
    run in the world the first part left.  When the first part ends on an
    exception, the rest is not run at all. *)
Theorem cards_app pt pu (first rest : list Card) (w : World) :
  cards pt pu (first ++ rest) w =
  match result_of (cards pt pu first w) with
  | Ok _ => after_rows (rows_of (cards pt pu first w))
              (cards pt pu rest (world_of (cards pt pu first w)))
  | _ => cards pt pu first w
  end.
Proof. exact (cards_split pt pu first rest w). Qed.

Lemma cards_length pt pu props w :
  (length (rows_of (cards pt pu props w)) <= length props)%nat.
Proof.
  revert w. induction props as [| prop rest IH]; intros w; [apply le_n |].
  destruct (within_total World geocode geodesic_km
              (fst (card_location_pair prop)) w) as [[|] [w1 H1]].
  - destruct (link_cases World (card_link prop) w1) as [[url H2] | H2].
    + destruct (price_total World requests_get url w1) as [price [w3 H3]].
      rewrite (cards_keep _ _ _ _ _ _ _ _ _ _ _ _ _ _ H1 H2 H3), rows_after_rows.
      cbn [app length]. specialize (IH w3). lia.
    + rewrite (cards_no_href _ _ _ _ _ _ _ _ _ _ H1 H2). cbn. lia.
  - rewrite (cards_drop _ _ _ _ _ _ _ _ _ _ H1). cbn [length].
    specialize (IH w1). lia.
Qed.

(** X6. [fetch_properties] always ends normally, whatever the site and
    the geocoder do.  It yields nothing when the request for the page
    raises, and at most one row per card otherwise. *)
Theorem fetch_properties_safe (url : string) (w : World) :
  result_of (fetch url w) = Ok tt /\
  match fst (requests_get url w) with
  | inl _ => fetch url w = ([], Ok tt, snd (requests_get url w))
  | inr soup =>
      (length (rows_of (fetch url w)) <= length (listing_cards soup))%nat
  end.
Proof.
  split; [apply fetch_result |].
  rewrite fetch_run.
  destruct (requests_get url w) as [[e | soup] w']; cbn [fst snd]; [reflexivity |].
  apply cards_length.
Qed.

(** X7. A link without an [href] attribute on an accepted card ends the
    page: the rows of the cards before it are kept, the cards after it are
    not processed, and no exception leaves [fetch_properties]. *)
Theorem link_without_href_ends_page url w soup w0 before bad after w1 :
  requests_get url w = (inr soup, w0) ->
  listing_cards soup = (before ++ bad :: after)%list ->
  result_of (cards (fst (get_property_type url)) (snd (get_property_type url))
               before w0) = Ok tt ->
  within (fst (card_location_pair bad))
         (world_of (cards (fst (get_property_type url))
                      (snd (get_property_type url)) before w0)) = (Ok true, w1) ->
  card_link bad = Some (mkAnchor None) ->
  fetch url w =
  (rows_of (cards (fst (get_property_type url)) (snd (get_property_type url))
              before w0),
   Ok tt, w1).
Proof.
  intros G L R H1 H2. rewrite fetch_run, G. cbn zeta. rewrite L, cards_split, R.
  rewrite (cards_no_href _ _ _ _ _ _ _ _ _ _ H1 H2).
  unfold after_rows, rows_of, world_of. cbn [fst snd].
  rewrite app_nil_r. reflexivity.
Qed.

(** *** The rows of a run *)

Lemma price_trimmed details_url w price w' :
  price_of details_url w = (Ok price, w') -> trimmed price.
Proof.
  rewrite price_run.
  destruct (requests_get details_url w) as [[e | soup] w1]; intros H;
    injection H as <- _; [trimmed_literal | apply trimmed_text_or_None].
Qed.

Lemma record_shape url prop row :
  record (get_property_type url) prop row ->
  length row = 8%nat /\ Forall trimmed row.
Proof.
  intros (w0 & w1 & u & w2 & w3 & price & _ & _ & P & ->).
  split; [reflexivity |]. unfold record_row.
  destruct (trimmed_location_pair prop) as [L1 L2].
  destruct (trimmed_category url) as [T1 T2].
  pose proof (price_trimmed _ _ _ _ P) as Pt.
  repeat (constructor; [first [assumption | apply trimmed_text_or_None] |]).
  constructor.
Qed.

(** X8. Every row of the table, the header included, has exactly eight
    fields, and no field has whitespace at either end. *)
Theorem table_rows_shape fuel base_urls w :
  Forall (fun row => length row = 8%nat /\ Forall trimmed row)
         (rows_of (scrape fuel base_urls w)).
Proof.
  rewrite scrape_rows. constructor.
  - split; [reflexivity |].
    unfold HEADER. repeat (constructor; [trimmed_literal |]). constructor.
  - eapply Forall_impl; [| apply categories_rows].
    intros row (url & prop & R). exact (record_shape url prop row R).
Qed.

Lemma pages_rows_tagged fuel base_url page w :
  Forall (fun row => exists prop, record (get_property_type base_url) prop row)
         (rows_of (pages fuel base_url page w)).
Proof.
  revert page w. induction fuel as [| fuel IH]; intros page w; [constructor |].
  destruct (requests_get (page_url base_url page) w) as [[e | soup] w1] eqn:G.
  - rewrite (pages_crash _ _ _ _ _ _ _ _ _ _ G). constructor.
  - rewrite (pages_step _ _ _ _ _ _ _ _ _ _ G). cbn zeta.
    pose proof (fetch_rows World requests_get geocode geodesic_km
                  (page_url base_url page) w1) as F.
    rewrite page_url_category in F.
    destruct (rows_of (fetch (page_url base_url page) w1)) as [| r rs] eqn:R.
    + rewrite R. constructor.
    + destruct (has_next_page soup); [| rewrite R; exact F].
      rewrite rows_after_rows. apply Forall_app. split; [exact F | apply IH].
Qed.

(** X9. Every row written during the traversal of a category carries, in
    its last two fields, the pair that [get_property_type] gives for the
    category's base URL, whatever the page it came from. *)
Theorem category_rows_tagged fuel base_url page w :
  Forall (fun row =>
            nth_error row 6 = Some (fst (get_property_type base_url)) /\
            nth_error row 7 = Some (snd (get_property_type base_url)))
         (rows_of (pages fuel base_url page w)).
Proof.
  eapply Forall_impl; [| apply pages_rows_tagged].
  intros row (prop & w0 & w1 & u & w2 & w3 & price & _ & _ & _ & ->).
  split; reflexivity.
Qed.

Lemma categories_rows_tagged fuel base_urls w :
  Forall (fun row => exists base_url prop,
              In base_url base_urls /\
              record (get_property_type base_url) prop row)
         (rows_of (categories fuel base_urls w)).
Proof.
  revert w. induction base_urls as [| base_url rest IH]; intros w; [constructor |].
  assert (P : Forall
            (fun row => exists b prop,
                 In b (base_url :: rest) /\ record (get_property_type b) prop row)
            (rows_of (pages fuel base_url 1%Z w))).
  { eapply Forall_impl; [| apply pages_rows_tagged].
    intros row (prop & R). exists base_url, prop. split; [left; reflexivity | exact R]. }
  cbn [categories_loop]. rewrite gbind_run.
  destruct (pages fuel base_url 1%Z w) as [[rows [[] | e |]] w']; try exact P.
  rewrite rows_after_rows. apply Forall_app. split; [exact P |].
  eapply Forall_impl; [| apply IH].
  intros row (b & prop & Hb & R). exists b, prop. split; [right; exact Hb | exact R].
Qed.

(** X10. In a run of the program on its five base URLs, every data row
    is tagged with one of the five known pairs; no row is tagged
    ("Unknown", "Unknown"). *)
Theorem main_rows_tagged fuel w row :
  In row (tl (rows_of (main World requests_get geocode geodesic_km fuel w))) ->
  exists tag,
    In tag [("House", "Sale"); ("Apartment", "Sale"); ("House", "Rent");
            ("Apartment", "Rent"); ("Bedsitter", "Rent")] /\
    nth_error row 6 = Some (fst tag) /\
    nth_error row 7 = Some (snd tag).
Proof.
  unfold main. rewrite scrape_rows. cbn [tl]. intros H.
  destruct (proj1 (Forall_forall _ _)
              (categories_rows_tagged fuel base_urls w) row H)
    as (b & prop & Hb & w0 & w1 & u & w2 & w3 & price & _ & _ & _ & ->).
  exists (get_property_type b). split; [| split; reflexivity].
  unfold base_urls in Hb. cbn [In] in Hb.
  destruct Hb as [<- | [<- | [<- | [<- | [<- | []]]]]];
    vm_compute; auto 6.
Qed.

(** *** How a run ends *)

Lemma pages_raise fuel base_url page w e :
  result_of (pages fuel base_url page w) = Raise e ->
  exists page' w0 w1,
    requests_get (page_url base_url page') w0 = (inl e, w1).
Proof.
  revert page w. induction fuel as [| fuel IH]; intros page w; [discriminate |].
  destruct (requests_get (page_url base_url page) w) as [[e' | soup] w1] eqn:G.
  - rewrite (pages_crash _ _ _ _ _ _ _ _ _ _ G). intros H.
    injection H as <-. eauto.
  - rewrite (pages_step _ _ _ _ _ _ _ _ _ _ G). cbn zeta.
    pose proof (fetch_result World requests_get geocode geodesic_km
                  (page_url base_url page) w1) as R.
    destruct (rows_of (fetch (page_url base_url page) w1));
      [rewrite R; discriminate |].
    destruct (has_next_page soup); [| rewrite R; discriminate].
    rewrite result_after_rows. apply IH.
Qed.

Lemma run_raises_only_from_page_fetch_aux fuel base_urls w e :
  result_of (scrape fuel base_urls w) = Raise e ->
  exists base_url page w0 w1,
    In base_url base_urls /\
    requests_get (page_url base_url page) w0 = (inl e, w1).
Proof.
  unfold scrape_all_properties. rewrite gbind_run. cbn [emit].
  rewrite result_after_rows. revert w.
  induction base_urls as [| base_url rest IH]; intros w; [discriminate |].
  cbn [categories_loop]. rewrite gbind_run.
  destruct (pages fuel base_url 1%Z w) as [[rows [[] | e' |]] w'] eqn:P.
  - rewrite result_after_rows. intros H.
    destruct (IH w' H) as (b & page & w0 & w1 & Hb & G).
    exists b, page, w0, w1. split; [right; exact Hb | exact G].
  - intros H. injection H as <-.
    destruct (pages_raise fuel base_url 1%Z w e') as (page & w0 & w1 & G).
    + rewrite P. reflexivity.
    + exists base_url, page, w0, w1. split; [left; reflexivity | exact G].
  - discriminate.
Qed.

(** X12. When every category has a last page within the iteration bound,
    the run ends; when in addition no page fetch of the loop raises, it
    ends normally, with exit status 0. *)
Theorem run_terminates fuel base_urls w :
  (forall base_url, In base_url base_urls ->
     exists n, (n < fuel)%nat /\ final_page base_url (1 + Z.of_nat n)%Z) ->
  result_of (scrape fuel base_urls w) <> OutOfFuel /\
  ((forall base_url page w0 e, In base_url base_urls ->
      fst (requests_get (page_url base_url page) w0) <> inl e) ->
   exit_status (result_of (scrape fuel base_urls w)) = Some 0%Z).
Proof.
  intros L.
  assert (T : result_of (scrape fuel base_urls w) <> OutOfFuel).
  { unfold scrape_all_properties. rewrite gbind_run. cbn [emit].
    rewrite result_after_rows. revert w.
    induction base_urls as [| base_url rest IH]; intros w; [discriminate |].
    cbn [categories_loop]. rewrite gbind_run.
    destruct (L base_url (or_introl eq_refl)) as (n & Hn & Ln).
    pose proof (pages_terminate World requests_get geocode geodesic_km
                  base_url n 1%Z Ln fuel w Hn) as P.
    destruct (pages fuel base_url 1%Z w) as [[rows [[] | e' |]] w'].
    - rewrite result_after_rows. apply IH.
      intros b Hb. apply L. right. exact Hb.
    - discriminate.
    - exfalso. apply P. reflexivity. }
  split; [exact T |]. intros N.
  destruct (result_of (scrape fuel base_urls w)) as [[] | e |] eqn:R.
  - reflexivity.
  - destruct (run_raises_only_from_page_fetch_aux fuel base_urls w e R)
      as (b & page & w0 & w1 & Hb & G).
    exfalso. apply (N b page w0 e Hb). rewrite G. reflexivity.
  - congruence.
Qed.

(** X13. The categories are traversed one after the other: a run over
    two lists of base URLs in a row is the run over the first list followed
    by the run over the second, started in the world the first left.  When
    the first does not end normally, the second is not started. *)
Theorem categories_app fuel (first rest : list string) (w : World) :
  categories fuel (first ++ rest) w =
  match result_of (categories fuel first w) with
  | Ok _ => after_rows (rows_of (categories fuel first w))
              (categories fuel rest (world_of (categories fuel first w)))
  | _ => categories fuel first w
  end.
Proof.
  revert w. induction first as [| base_url first IH]; intros w.
  - cbn [app]. symmetry. apply after_rows_nil.
  - cbn [app categories_loop]. rewrite !gbind_run.
    destruct (pages fuel base_url 1%Z w) as [[rows [[] | e |]] w'];
      try reflexivity.
    rewrite IH, result_after_rows.
    destruct (result_of (categories fuel first w')); try reflexivity.
    rewrite rows_after_rows, world_after_rows, after_rows_app. reflexivity.
Qed.

(** X14. When the geocoder resolves nothing (it finds no match or raises
    on every query), no card is accepted: the table holds the header row
    and nothing else. *)
Theorem no_resolution_no_rows fuel base_urls w :
  (forall query w0 c, fst (geocode query w0) <> inr (Some c)) ->
  rows_of (scrape fuel base_urls w) = [HEADER].
Proof.
  intros N. rewrite scrape_rows. f_equal.
  pose proof (categories_rows World requests_get geocode geodesic_km
                fuel base_urls w) as F.
  destruct (rows_of (categories fuel base_urls w)) as [| row rows];
    [reflexivity |].
  inversion F as [| ? ? (url & prop & w0 & w1 & u & w2 & w3 & price & Hw & _) _].
  destruct (within_true _ _ _ _ _ _ Hw) as (c & G & _).
  exfalso. apply (N (fst (card_location_pair prop) ++ ", Kenya") w0 c).
  rewrite G. reflexivity.
Qed.

End PipelineMore.

(** ** More concrete runs *)

Example two_categories_run :
  rows_of (Sim.run_scrape Samples.two_category_net 3
             [Sim.houses_for_sale; Sim.flats_for_rent] []) =
  [HEADER; Sim.karen_row; Samples.kilimani_rent_row].
Proof. vm_compute. reflexivity. Qed.

Lemma link_without_href_ends_page_witness :
  Sim.run_fetch Samples.nohref_net Sim.houses_for_sale [] =
  ([Sim.karen_row], Ok tt,
   [Sim.Get Sim.houses_for_sale; Sim.Geocode "Karen, Kenya";
    Sim.Get Sim.karen_url; Sim.Geocode "Kilimani, Kenya"]).
Proof.
  unfold Sim.run_fetch.
  rewrite (link_without_href_ends_page Sim.World
             (Sim.requests_get Samples.nohref_net)
             (Sim.geocode Samples.nohref_net) Sim.flat_km
             Sim.houses_for_sale []
             (Sim.listing_page
                [Sim.card_karen; Samples.card_nohref; Sim.card_kilimani_nolink]
                true)
             [Sim.Get Sim.houses_for_sale]
             [Sim.card_karen] Samples.card_nohref [Sim.card_kilimani_nolink]
             [Sim.Get Sim.houses_for_sale; Sim.Geocode "Karen, Kenya";
              Sim.Get Sim.karen_url; Sim.Geocode "Kilimani, Kenya"]);
    vm_compute; reflexivity.
Defined.

Lemma main_rows_tagged_witness :
  exists tag,
    In tag [("House", "Sale"); ("Apartment", "Sale"); ("House", "Rent");
            ("Apartment", "Rent"); ("Bedsitter", "Rent")] /\
    nth_error Sim.karen_row 6 = Some (fst tag) /\
    nth_error Sim.karen_row 7 = Some (snd tag).
Proof.
  apply (main_rows_tagged Sim.World (Sim.requests_get Sim.sample_net)
           (Sim.geocode Sim.sample_net) Sim.flat_km 3 [] Sim.karen_row).
  vm_compute. left. reflexivity.
Defined.

Lemma run_terminates_witness :
  result_of (Sim.run_scrape Sim.sample_net 2 [Sim.houses_for_sale] []) <> OutOfFuel /\
  exit_status (result_of (Sim.run_scrape Sim.sample_net 2 [Sim.houses_for_sale] []))
  = Some 0%Z.
Proof.
  destruct (run_terminates Sim.World (Sim.requests_get Sim.sample_net)
              (Sim.geocode Sim.sample_net) Sim.flat_km 2 [Sim.houses_for_sale] [])
    as [T E].
  - intros base_url [<- | []]. exists 1%nat. split; [lia |].
    intros w soup w1 G. left. reflexivity.
  - split; [exact T |]. apply E.
    intros base_url page w0 e [<- | []].
    unfold page_url. destruct (page >? 1)%Z; cbn; discriminate.
Defined.

Lemma no_resolution_no_rows_witness :
  rows_of (Sim.run_scrape Samples.silent_geocoder_net 3 [Sim.houses_for_sale] []) =
  [HEADER].
Proof.
  apply (no_resolution_no_rows Sim.World
           (Sim.requests_get Samples.silent_geocoder_net)
           (Sim.geocode Samples.silent_geocoder_net) Sim.flat_km).
  intros query w0 c. cbn. discriminate.
Defined.

(** ** The rows of a run and the pages they come from *)

Section RunFacts.

Variable World : Type.
Variable requests_get : string -> World -> (Exn + Soup) * World.
Variable geocode : string -> World -> (Exn + option Coords) * World.
Variable geodesic_km : Coords -> Coords -> Q.

Local Abbreviation within := (is_within_nairobi_area World geocode geodesic_km).
Local Abbreviation price_of := (extract_price World requests_get).
Local Abbreviation link_of := (details_url_of World).
Local Abbreviation cards := (cards_loop World requests_get geocode geodesic_km).
Local Abbreviation fetch := (fetch_properties World requests_get geocode geodesic_km).
Local Abbreviation pages := (pages_loop World requests_get geocode geodesic_km).
Local Abbreviation categories := (categories_loop World requests_get geocode geodesic_km).
Local Abbreviation scrape := (scrape_all_properties World requests_get geocode geodesic_km).
Local Abbreviation record := (record_of World requests_get geocode geodesic_km).
Local Abbreviation step := (next_page_step World requests_get geocode geodesic_km).
Local Abbreviation its := (iterations World requests_get geocode geodesic_km).
Local Abbreviation cstart := (category_start World requests_get geocode geodesic_km).
Local Abbreviation at_iteration := (iteration_of_run World requests_get geocode geodesic_km).
Local Abbreviation fetched := (page_fetched World requests_get geocode geodesic_km).

Lemma cstart_In fuel base_urls w base_url ws :
  cstart fuel base_urls w base_url ws -> In base_url base_urls.
Proof. induction 1; [left; reflexivity | right; assumption]. Qed.

(** A row that [fetch_properties] yields is the record of a card of the
    markup its own request returned. *)
Lemma fetch_rows_traced url w1 row :
  In row (rows_of (fetch url w1)) ->
  exists soup wc prop,
    requests_get url w1 = (inr soup, wc) /\
    In prop (listing_cards soup) /\
    record (get_property_type url) prop row.
Proof.
  rewrite (fetch_run World requests_get geocode geodesic_km url w1).
  destruct (requests_get url w1) as [[e | soup] wc]; [intros [] |].
  cbn [rows_of fst]. intros H.
  destruct (proj1 (Forall_forall _ _)
              (cards_rows World requests_get geocode geodesic_km
                 (fst (get_property_type url)) (snd (get_property_type url))
                 (listing_cards soup) wc) row H) as (prop & Hin & R).
  exists soup, wc, prop. split; [reflexivity | split; [exact Hin |]].
  rewrite (surjective_pairing (get_property_type url)). exact R.
Qed.

(** A row written during the traversal of a category was yielded in one
    of its iterations. *)
Lemma pages_rows_traced fuel base_url page w row :
  In row (rows_of (pages fuel base_url page w)) ->
  exists n page' wp soup0 w1,
    (n < fuel)%nat /\
    its base_url n (page, w) (page', wp) /\
    requests_get (page_url base_url page') wp = (inr soup0, w1) /\
    In row (rows_of (fetch (page_url base_url page') w1)).
Proof.
  revert page w. induction fuel as [| fuel IH]; intros page w; [intros [] |].
  destruct (requests_get (page_url base_url page) w) as [[e | soup0] w1] eqn:G.
  - rewrite (pages_crash _ _ _ _ _ _ _ _ _ _ G). intros [].
  - rewrite (pages_step _ _ _ _ _ _ _ _ _ _ G). cbn zeta.
    assert (Here : In row (rows_of (fetch (page_url base_url page) w1)) ->
                   exists n page' wp soup0 w1,
                     (n < S fuel)%nat /\
                     its base_url n (page, w) (page', wp) /\
                     requests_get (page_url base_url page') wp = (inr soup0, w1) /\
                     In row (rows_of (fetch (page_url base_url page') w1))).
    { intros H. exists 0%nat, page, w, soup0, w1.
      split; [lia | split; [constructor | split; [exact G | exact H]]]. }
    destruct (rows_of (fetch (page_url base_url page) w1)) as [| r rs] eqn:R.
    + rewrite R. intros [].
    + destruct (has_next_page soup0) eqn:N; [| rewrite R; exact Here].
      rewrite rows_after_rows. intros H. apply in_app_or in H.
      destruct H as [H | H]; [exact (Here H) |].
      destruct (IH _ _ H) as (n & page' & wp & s0 & w1' & Hn & I & G' & Hr).
      exists (S n), page', wp, s0, w1'.
      split; [lia | split; [| split; [exact G' | exact Hr]]].
      eapply iterations_S; [| exact I].
      apply (next_page_step_intro World requests_get geocode geodesic_km
               base_url page w soup0 w1 G); [rewrite R; discriminate | exact N].
Qed.

(** Every data row of a run is the record of a card of a page that the
    run fetched. *)
Lemma categories_rows_traced fuel base_urls w row :
  In row (rows_of (categories fuel base_urls w)) ->
  exists url soup wc prop,
    fetched fuel base_urls w url soup wc /\
    In prop (listing_cards soup) /\
    record (get_property_type url) prop row.
Proof.
  assert (K : forall urls w0,
            In row (rows_of (categories fuel urls w0)) ->
            exists base_url ws n page wp soup0 w1 soup wc prop,
              cstart fuel urls w0 base_url ws /\
              (n < fuel)%nat /\
              its base_url n (1%Z, ws) (page, wp) /\
              requests_get (page_url base_url page) wp = (inr soup0, w1) /\
              requests_get (page_url base_url page) w1 = (inr soup, wc) /\
              In prop (listing_cards soup) /\
              record (get_property_type (page_url base_url page)) prop row).
  { induction urls as [| first rest IH]; intros w0; [intros [] |].
    cbn [categories_loop]. rewrite gbind_run.
    assert (P : In row (rows_of (pages fuel first 1%Z w0)) ->
                exists base_url ws n page wp soup0 w1 soup wc prop,
                  cstart fuel (first :: rest) w0 base_url ws /\
                  (n < fuel)%nat /\
                  its base_url n (1%Z, ws) (page, wp) /\
                  requests_get (page_url base_url page) wp = (inr soup0, w1) /\
                  requests_get (page_url base_url page) w1 = (inr soup, wc) /\
                  In prop (listing_cards soup) /\
                  record (get_property_type (page_url base_url page)) prop row).
    { intros H.
      destruct (pages_rows_traced _ _ _ _ _ H)
        as (n & page & wp & soup0 & w1 & Hn & I & G & Hr).
      destruct (fetch_rows_traced _ _ _ Hr) as (soup & wc & prop & G' & Hin & R).
      exists first, w0, n, page, wp, soup0, w1, soup, wc, prop.
      repeat split; try assumption. constructor. }
    destruct (pages fuel first 1%Z w0) as [[rows [[] | e |]] w'] eqn:E;
      try exact P.
    rewrite rows_after_rows. intros H. apply in_app_or in H.
    destruct H as [H | H]; [exact (P H) |].
    destruct (IH _ H)
      as (b & ws & n & page & wp & soup0 & w1 & soup & wc & prop & C & rest').
    exists b, ws, n, page, wp, soup0, w1, soup, wc, prop.
    split; [| exact rest'].
    apply category_start_later; rewrite E; [reflexivity | exact C]. }
  intros H.
  destruct (K _ _ H)
    as (b & ws & n & page & wp & soup0 & w1 & soup & wc & prop
        & C & Hn & I & G & G' & Hin & R).
  exists (page_url b page), soup, wc, prop.
  split; [| split; [exact Hin | exact R]].
  exists b, page, wp, soup0, w1.
  split; [exact (cstart_In _ _ _ _ _ C) |].
  split; [exists ws, n; auto | auto].
Qed.

(** *** Where an exception that ends the run comes from *)

Lemma pages_raise_traced fuel base_url page w e :
  result_of (pages fuel base_url page w) = Raise e ->
  exists n page' wp,
    (n < fuel)%nat /\
    its base_url n (page, w) (page', wp) /\
    fst (requests_get (page_url base_url page') wp) = inl e.
Proof.
  revert page w. induction fuel as [| fuel IH]; intros page w; [discriminate |].
  destruct (requests_get (page_url base_url page) w) as [[e' | soup0] w1] eqn:G.
  - rewrite (pages_crash _ _ _ _ _ _ _ _ _ _ G). intros H. injection H as <-.
    exists 0%nat, page, w. split; [lia | split; [constructor |]].
    rewrite G. reflexivity.
  - rewrite (pages_step _ _ _ _ _ _ _ _ _ _ G). cbn zeta.
    pose proof (fetch_result World requests_get geocode geodesic_km
                  (page_url base_url page) w1) as R.
    destruct (rows_of (fetch (page_url base_url page) w1)) as [| r rs] eqn:Rows;
      [rewrite R; discriminate |].
    destruct (has_next_page soup0) eqn:N; [| rewrite R; discriminate].
    rewrite result_after_rows. intros H.
    destruct (IH _ _ H) as (n & page' & wp & Hn & I & Ge).
    exists (S n), page', wp. split; [lia | split; [| exact Ge]].
    eapply iterations_S; [| exact I].
    apply (next_page_step_intro World requests_get geocode geodesic_km
             base_url page w soup0 w1 G); [rewrite Rows; discriminate | exact N].
Qed.

Lemma pages_raise_reached base_url n s s' e :
  its base_url n s s' ->
  fst (requests_get (page_url base_url (fst s')) (snd s')) = inl e ->
  forall fuel, (n < fuel)%nat ->
  result_of (pages fuel base_url (fst s) (snd s)) = Raise e.
Proof.
  induction 1 as [s | n s1 s2 s3 St I IH]; intros Ge fuel Hf;
    (destruct fuel as [| fuel]; [lia |]).
  - destruct s as [page w]. cbn [fst snd] in *.
    destruct (requests_get (page_url base_url page) w) as [r w1] eqn:G.
    cbn [fst] in Ge. subst r.
    rewrite (pages_crash _ _ _ _ _ _ _ _ _ _ G). reflexivity.
  - destruct St as [page w soup0 w1 G Rows N]. cbn [fst snd] in *.
    rewrite (pages_step _ _ _ _ _ _ _ _ _ _ G). cbn zeta.
    destruct (rows_of (fetch (page_url base_url page) w1)) as [| r rs];
      [congruence |].
    rewrite N, result_after_rows. apply (IH Ge). lia.
Qed.

Lemma categories_raise_traced fuel base_urls w e :
  result_of (categories fuel base_urls w) = Raise e ->
  exists base_url page wp,
    at_iteration fuel base_urls w base_url page wp /\
    fst (requests_get (page_url base_url page) wp) = inl e.
Proof.
  revert w. induction base_urls as [| first rest IH]; intros w; [discriminate |].
  cbn [categories_loop]. rewrite gbind_run.
  destruct (pages fuel first 1%Z w) as [[rows [[] | e' |]] w'] eqn:P.
  - rewrite result_after_rows. intros H.
    destruct (IH _ H) as (b & page & wp & (ws & n & C & Hn & I) & Ge).
    exists b, page, wp. split; [| exact Ge].
    exists ws, n. split; [| auto].
    apply category_start_later; rewrite P; [reflexivity | exact C].
  - intros H. injection H as <-.
    destruct (pages_raise_traced fuel first 1%Z w e')
      as (n & page & wp & Hn & I & Ge); [rewrite P; reflexivity |].
    exists first, page, wp. split; [| exact Ge].
    exists w, n. split; [constructor | auto].
  - discriminate.
Qed.

Lemma categories_raise_reached fuel base_urls w base_url ws e :
  cstart fuel base_urls w base_url ws ->
  result_of (pages fuel base_url 1%Z ws) = Raise e ->
  result_of (categories fuel base_urls w) = Raise e.
Proof.
  induction 1 as [b rest w | first rest w b w' Ok1 C IH]; intros H;
    cbn [categories_loop]; rewrite gbind_run.
  - destruct (pages fuel b 1%Z w) as [[rows r] w1].
    unfold result_of in H. cbn [fst snd] in H. subst r. reflexivity.
  - destruct (pages fuel first 1%Z w) as [[rows [[] | e' |]] w1];
      try discriminate Ok1.
    rewrite result_after_rows. exact (IH H).
Qed.

(** *** The rows of a run, level by level *)

Lemma scrape_result fuel base_urls w :
  result_of (scrape fuel base_urls w) = result_of (categories fuel base_urls w).
Proof. unfold scrape_all_properties. rewrite gbind_run. reflexivity. Qed.

Lemma categories_rows_cons fuel first rest w :
  rows_of (categories fuel (first :: rest) w) =
  (rows_of (pages fuel first 1%Z w) ++
   match result_of (pages fuel first 1%Z w) with
   | Ok _ => rows_of (categories fuel rest (world_of (pages fuel first 1%Z w)))
   | _ => []
   end)%list.
Proof.
  cbn [categories_loop]. rewrite gbind_run.
  destruct (pages fuel first 1%Z w) as [[rows [[] | e |]] w'];
    unfold rows_of, result_of, world_of; cbn [fst snd];
    try (rewrite app_nil_r; reflexivity).
  reflexivity.
Qed.

Lemma pages_rows_step fuel base_url page w soup0 w1 :
  requests_get (page_url base_url page) w = (inr soup0, w1) ->
  rows_of (pages (S fuel) base_url page w) =
  (rows_of (fetch (page_url base_url page) w1) ++
   match rows_of (fetch (page_url base_url page) w1) with
   | [] => []
   | _ :: _ =>
       if has_next_page soup0
       then rows_of (pages fuel base_url (page + 1)%Z
                       (world_of (fetch (page_url base_url page) w1)))
       else []
   end)%list.
Proof.
  intros G. rewrite (pages_step _ _ _ _ _ _ _ _ _ _ G). cbn zeta.
  remember (fetch (page_url base_url page) w1) as x eqn:X.
  destruct x as [[[| r rs] res] w2];
    unfold rows_of, world_of, after_rows; cbn [fst snd app]; [reflexivity |].
  destruct (has_next_page soup0); cbn [fst snd app];
    [reflexivity | rewrite app_nil_r; reflexivity].
Qed.

Lemma fetch_rows_cards url w1 soup wc :
  requests_get url w1 = (inr soup, wc) ->
  rows_of (fetch url w1) =
  rows_of (cards (fst (get_property_type url)) (snd (get_property_type url))
             (listing_cards soup) wc).
Proof.
  intros G. rewrite (fetch_run World requests_get geocode geodesic_km url w1), G.
  reflexivity.
Qed.

Lemma header_not_data fuel base_urls w :
  ~ In HEADER (rows_of (categories fuel base_urls w)).
Proof.
  intros H.
  apply (proj1 (Forall_forall _ _)
           (categories_rows World requests_get geocode geodesic_km
              fuel base_urls w)) in H.
  destruct H as (url & prop & w0 & w1 & u & w2 & w3 & price & _ & _ & _ & E).
  unfold record_row, HEADER in E. injection E as _ _ _ _ _ _ E _.
  pose proof (category_values url) as V. cbn [In] in V.
  destruct V as [V | [V | [V | [V | [V | [V | []]]]]]];
    rewrite <- V in E; discriminate.
Qed.

(** *** The claims about the rows of a run *)

(** C9, as amended. The table begins with the header row, written once
    at the start of the run: its eight fields are the column names, and its
    text in the file is the names separated by a comma alone,
    "Location,Other Location Details,Size,Bedrooms,Bathrooms,Price,Property
    Type,Purchase Type", followed by CR LF.  After it comes one
    comma-delimited row per accepted record, in extraction order, with the
    eight fields location, other location details, size, bedrooms,
    bathrooms, price, property type, purchase type:
    - every data row is the record of a card of a page the run fetched;
    - the data rows are those of the categories in order, a category's are
      those of its pages in order, a page's are those its generator yields,
      which are those of its cards in order;
    - an accepted card gives exactly one row, before the rows of the cards
      after it, and a rejected card gives none. *)
Theorem C9_output_table :
  (forall fuel base_urls w,
      rows_of (scrape fuel base_urls w) =
        ["Location"; "Other Location Details"; "Size"; "Bedrooms"; "Bathrooms";
         "Price"; "Property Type"; "Purchase Type"]
        :: rows_of (categories fuel base_urls w) /\
      Csv.file_text (rows_of (scrape fuel base_urls w)) =
        "Location,Other Location Details,Size,Bedrooms,Bathrooms,Price,Property Type,Purchase Type"
        ++ Csv.lineterminator
        ++ Csv.file_text (rows_of (categories fuel base_urls w)) /\
      ~ In HEADER (rows_of (categories fuel base_urls w)) /\
      forall row,
        In row (rows_of (categories fuel base_urls w)) ->
        exists url soup wc prop price,
          fetched fuel base_urls w url soup wc /\
          In prop (listing_cards soup) /\
          row = [fst (card_location_pair prop);
                 snd (card_location_pair prop);
                 text_or_None (card_area prop);
                 text_or_None (card_beds prop);
                 text_or_None (card_bathrooms prop);
                 price;
                 fst (get_property_type url);
                 snd (get_property_type url)] /\
          Csv.writerow row = Csv.join (map Csv.field row) ++ Csv.lineterminator) /\
  (forall fuel first rest w,
      rows_of (categories fuel (first :: rest) w) =
      (rows_of (pages fuel first 1%Z w) ++
       match result_of (pages fuel first 1%Z w) with
       | Ok _ => rows_of (categories fuel rest (world_of (pages fuel first 1%Z w)))
       | _ => []
       end)%list) /\
  (forall fuel base_url page w soup0 w1,
      requests_get (page_url base_url page) w = (inr soup0, w1) ->
      rows_of (pages (S fuel) base_url page w) =
      (rows_of (fetch (page_url base_url page) w1) ++
       match rows_of (fetch (page_url base_url page) w1) with
       | [] => []
       | _ :: _ =>
           if has_next_page soup0
           then rows_of (pages fuel base_url (page + 1)%Z
                           (world_of (fetch (page_url base_url page) w1)))
           else []
       end)%list) /\
  (forall url w1 soup wc,
      requests_get url w1 = (inr soup, wc) ->
      rows_of (fetch url w1) =
      rows_of (cards (fst (get_property_type url)) (snd (get_property_type url))
                 (listing_cards soup) wc)) /\
  (forall pt pu prop rest wc w1 details_url price w3,
      within (fst (card_location_pair prop)) wc = (Ok true, w1) ->
      link_of (card_link prop) w1 = (Ok details_url, w1) ->
      price_of details_url w1 = (Ok price, w3) ->
      cards pt pu (prop :: rest) wc =
      after_rows
        [[fst (card_location_pair prop);
          snd (card_location_pair prop);
          text_or_None (card_area prop);
          text_or_None (card_beds prop);
          text_or_None (card_bathrooms prop);
          price; pt; pu]]
        (cards pt pu rest w3)) /\
  (forall pt pu prop rest wc w1,
      within (fst (card_location_pair prop)) wc = (Ok false, w1) ->
      cards pt pu (prop :: rest) wc = cards pt pu rest w1).
Proof.
  split; [| split; [| split; [| split; [| split]]]].
  - intros fuel base_urls w.
    pose proof (scrape_rows World requests_get geocode geodesic_km
                  fuel base_urls w) as S.
    split; [exact S |]. split; [rewrite S; reflexivity |].
    split; [apply header_not_data |].
    intros row H.
    destruct (categories_rows_traced _ _ _ _ H)
      as (url & soup & wc & prop & F & Hin & R).
    destruct R as (w0 & w1 & u & w2 & w3 & price & _ & _ & _ & ->).
    exists url, soup, wc, prop, price. repeat split; assumption.
  - intros. apply categories_rows_cons.
  - intros fuel base_url page w soup0 w1 G. apply (pages_rows_step _ _ _ _ _ _ G).
  - intros url w1 soup wc G. apply (fetch_rows_cards _ _ _ _ G).
  - intros pt pu prop rest wc w1 details_url price w3 H1 H2 H3.
    apply (cards_keep World requests_get geocode geodesic_km
             pt pu prop rest wc w1 details_url w1 price w3 H1 H2 H3).
  - intros pt pu prop rest wc w1 H.
    apply (cards_drop World requests_get geocode geodesic_km _ _ _ _ _ _ H).
Qed.

(** C10. Every data row of the output is the record of a card of a page
    the run fetched, and its location field is that card's: the placeholder
    "None" when the card has no location node, and otherwise the card's
    location text before its first comma, stripped; in both cases it has no
    comma and no whitespace at either end. *)
Theorem C10_location_field fuel base_urls w row :
  In row (tl (rows_of (scrape fuel base_urls w))) ->
  exists url soup wc prop price location,
    fetched fuel base_urls w url soup wc /\
    In prop (listing_cards soup) /\
    row = record_row (card_location_pair prop) prop price (get_property_type url) /\
    nth_error row 0 = Some location /\
    char_in comma location = false /\
    trimmed location /\
    match card_location prop with
    | None => location = "None"
    | Some text => location = strip (fst (split_comma text))
    end.
Proof.
  rewrite (scrape_rows World requests_get geocode geodesic_km). cbn [tl].
  intros H.
  destruct (categories_rows_traced _ _ _ _ H)
    as (url & soup & wc & prop & F & Hin & R).
  destruct R as (w0 & w1 & u & w2 & w3 & price & _ & _ & _ & ->).
  exists url, soup, wc, prop, price, (fst (card_location_pair prop)).
  split; [exact F | split; [exact Hin | split; [reflexivity |]]].
  split; [reflexivity |].
  rewrite location_field. destruct (card_location prop) as [text |].
  - split; [| split; [apply PyStrFacts.strip_trimmed | reflexivity]].
    apply PyStrFacts.char_in_strip, PyStrFacts.before_no_comma.
  - split; [reflexivity | split; [| reflexivity]].
    split; intros c E; injection E as <-; reflexivity.
Qed.

(** X11. A run ends with an exception exactly when the pagination
    loop's own fetch of a page, the first request of an iteration the run
    reaches, raises it.  Errors of the geocoder, of a detail page, of a
    card, or of the second fetch of the page inside [fetch_properties]
    never end the run. *)
Theorem run_raises_only_from_page_fetch fuel base_urls w e :
  result_of (scrape fuel base_urls w) = Raise e <->
  exists base_url page wp,
    In base_url base_urls /\
    at_iteration fuel base_urls w base_url page wp /\
    fst (requests_get (page_url base_url page) wp) = inl e.
Proof.
  rewrite scrape_result. split.
  - intros H.
    destruct (categories_raise_traced _ _ _ _ H) as (b & page & wp & A & Ge).
    exists b, page, wp. split; [| split; [exact A | exact Ge]].
    destruct A as (ws & n & C & _). exact (cstart_In _ _ _ _ _ C).
  - intros (b & page & wp & _ & (ws & n & C & Hn & I) & Ge).
    apply (categories_raise_reached _ _ _ _ _ _ C).
    exact (pages_raise_reached b n (1%Z, ws) (page, wp) e I Ge fuel Hn).
Qed.

End RunFacts.

(** ** The text of the file in concrete runs *)

Example karen_line :
  Csv.writerow Sim.karen_row =
  "Karen,Nairobi,450 sqm,4,3,"
  ++ String Csv.dquote
       ("KSh 45,000,000"
        ++ String Csv.dquote (",House,Sale" ++ Csv.lineterminator)).
Proof. reflexivity. Qed.

Example empty_field_line :
  Csv.writerow Sim.kilimani_row =
  "Kilimani,,None,2,None,None,House,Sale" ++ Csv.lineterminator.
Proof. reflexivity. Qed.

(** C9, counterexample. In the file of a run, the header line is the
    eight names separated by a comma alone; it does not have the text with
    a space after each comma. *)
Lemma C9_header_text_has_commas_alone :
  startswith
    ("Location,Other Location Details,Size,Bedrooms,Bathrooms,Price,Property Type,Purchase Type"
     ++ Csv.lineterminator)
    (Csv.file_text
       (rows_of (Sim.run_scrape Sim.sample_net 5 [Sim.houses_for_sale] []))) = true /\
  startswith
    "Location, Other Location Details, Size, Bedrooms, Bathrooms, Price, Property Type, Purchase Type"
    (Csv.file_text
       (rows_of (Sim.run_scrape Sim.sample_net 5 [Sim.houses_for_sale] []))) = false.
Proof. split; vm_compute; reflexivity. Qed.

Lemma C9_witness :
  (exists url soup wc prop price,
      page_fetched Sim.World (Sim.requests_get Sim.sample_net)
        (Sim.geocode Sim.sample_net) Sim.flat_km 5 [Sim.houses_for_sale] []
        url soup wc /\
      In prop (listing_cards soup) /\
      Sim.karen_row =
        [fst (card_location_pair prop);
         snd (card_location_pair prop);
         text_or_None (card_area prop);
         text_or_None (card_beds prop);
         text_or_None (card_bathrooms prop);
         price;
         fst (get_property_type url);
         snd (get_property_type url)] /\
      Csv.writerow Sim.karen_row =
        Csv.join (map Csv.field Sim.karen_row) ++ Csv.lineterminator) /\
  rows_of (pages_loop Sim.World (Sim.requests_get Sim.sample_net)
             (Sim.geocode Sim.sample_net) Sim.flat_km 2 Sim.houses_for_sale 1 []) =
    [Sim.karen_row] /\
  rows_of (Sim.run_fetch Sim.sample_net Sim.houses_for_sale
             [Sim.Get Sim.houses_for_sale]) = [Sim.karen_row] /\
  cards_loop Sim.World (Sim.requests_get Sim.sample_net)
    (Sim.geocode Sim.sample_net) Sim.flat_km "House" "Sale"
    [Sim.card_karen; Sim.card_nyali] [] =
  ([Sim.karen_row], Ok tt,
   [Sim.Geocode "Karen, Kenya"; Sim.Get Sim.karen_url;
    Sim.Geocode "Nyali, Kenya"]).
Proof.
  destruct (C9_output_table Sim.World (Sim.requests_get Sim.sample_net)
              (Sim.geocode Sim.sample_net) Sim.flat_km)
    as (Run & _ & Pages & Fetch & Keep & Drop).
  split; [| split; [| split]].
  - destruct (Run 5%nat [Sim.houses_for_sale] []) as (_ & _ & _ & T).
    apply (T Sim.karen_row). vm_compute. left. reflexivity.
  - rewrite (Pages 1%nat Sim.houses_for_sale 1%Z []
               (Sim.listing_page [Sim.card_karen; Sim.card_nyali] true)
               [Sim.Get Sim.houses_for_sale] eq_refl).
    vm_compute. reflexivity.
  - unfold Sim.run_fetch.
    rewrite (Fetch Sim.houses_for_sale [Sim.Get Sim.houses_for_sale]
               (Sim.listing_page [Sim.card_karen; Sim.card_nyali] true)
               [Sim.Get Sim.houses_for_sale; Sim.Get Sim.houses_for_sale] eq_refl).
    vm_compute. reflexivity.
  - rewrite (Keep "House" "Sale" Sim.card_karen [Sim.card_nyali] []
               [Sim.Geocode "Karen, Kenya"] Sim.karen_url "KSh 45,000,000"
               [Sim.Geocode "Karen, Kenya"; Sim.Get Sim.karen_url]);
      [| vm_compute; reflexivity | vm_compute; reflexivity
       | vm_compute; reflexivity].
    rewrite (Drop "House" "Sale" Sim.card_nyali []
               [Sim.Geocode "Karen, Kenya"; Sim.Get Sim.karen_url]
               [Sim.Geocode "Karen, Kenya"; Sim.Get Sim.karen_url;
                Sim.Geocode "Nyali, Kenya"]);
      vm_compute; reflexivity.
Defined.

Lemma C10_witness :
  exists url soup wc prop price location,
    page_fetched Sim.World (Sim.requests_get Sim.sample_net)
      (Sim.geocode Sim.sample_net) Sim.flat_km 5 [Sim.houses_for_sale] []
      url soup wc /\
    In prop (listing_cards soup) /\
    Sim.karen_row =
      record_row (card_location_pair prop) prop price (get_property_type url) /\
    nth_error Sim.karen_row 0 = Some location /\
    char_in comma location = false /\
    trimmed location /\
    match card_location prop with
    | None => location = "None"
    | Some text => location = strip (fst (split_comma text))
    end.
Proof.
  apply (C10_location_field Sim.World (Sim.requests_get Sim.sample_net)
           (Sim.geocode Sim.sample_net) Sim.flat_km 5 [Sim.houses_for_sale] []
           Sim.karen_row).
  vm_compute. left. reflexivity.
Defined.

Lemma run_raises_only_from_page_fetch_witness :
  (exists base_url page wp,
      In base_url [Sim.houses_for_sale; Sim.flats_for_rent] /\
      iteration_of_run Sim.World (Sim.requests_get Sim.offline_net)
        (Sim.geocode Sim.offline_net) Sim.flat_km 5
        [Sim.houses_for_sale; Sim.flats_for_rent] [] base_url page wp /\
      fst (Sim.requests_get Sim.offline_net (page_url base_url page) wp) =
      inl RequestException) /\
  result_of (Sim.run_scrape Sim.offline_net 5
               [Sim.houses_for_sale; Sim.flats_for_rent] []) =
  Raise RequestException.
Proof.
  split.
  - apply (proj1 (run_raises_only_from_page_fetch Sim.World
                    (Sim.requests_get Sim.offline_net)
                    (Sim.geocode Sim.offline_net) Sim.flat_km 5
                    [Sim.houses_for_sale; Sim.flats_for_rent] []
                    RequestException)).
    vm_compute. reflexivity.
  - apply (proj2 (run_raises_only_from_page_fetch Sim.World
                    (Sim.requests_get Sim.offline_net)
                    (Sim.geocode Sim.offline_net) Sim.flat_km 5
                    [Sim.houses_for_sale; Sim.flats_for_rent] []
                    RequestException)).
    exists Sim.houses_for_sale, 1%Z, [].
    split; [left; reflexivity |]. split; [| reflexivity].
    exists [], 0%nat. split; [constructor |]. split; [lia | constructor].
Defined.
